(** * SNData, CSP data release 1: access to the locally available data files

    A shallow embedding of [SNData/csp/dr1/_data_parsing.py] and the
    properties of its five functions

      - [get_available_tables], [load_table]
      - [get_available_ids], [get_data_for_id]
      - [iter_data]

    The module is Python glue around [pathlib], [glob] and [astropy.table].
    The embedding keeps the control flow of every function, statement by
    statement, and models the library calls it goes through: the string
    methods [lstrip], [split] and slicing, [Path.stem], the [fnmatch]
    patterns behind [glob] and [rglob], Python truth values, and astropy
    tables as ordered lists of named columns with a [meta] dictionary.

    The builtins [float] and [int] are parameters of the model, so that every
    general statement holds for Python's own conversions; the concrete
    scenarios are evaluated with decimal numerals. *)

From Stdlib Require Import ZArith QArith Ascii List Lia Bool.
From stdpp Require Import base strings list gmap pretty.

Set Default Proof Using "Type".
Open Scope stdpp_scope.
Close Scope Q_scope.

(* ===================================================================== *)
(** * Exceptions and results *)
(* ===================================================================== *)

(** The exceptions the module can end with.  [DataUnavailable] is what
    [_raise_for_data] raises; the two [ValueError]s of the module itself are
    told apart by their message. *)
Inductive exn : Type :=
  | DataUnavailable
  | ValueError (msg : string)
  | UnboundLocalError (name : string)
  | KeyError (key : string)
  | IndexError (msg : string)
  | TypeError (msg : string)
  | FileNotFoundError (path : string)
  | InconsistentTableError (msg : string).

Inductive result (A : Type) : Type :=
  | Ok (a : A)
  | Raise (e : exn).
Arguments Ok {A} a.
Arguments Raise {A} e.

(** Statements run in sequence until one raises: [x ← r; k]. *)
#[global] Instance result_ret : MRet result := fun A a => Ok a.
#[global] Instance result_bind : MBind result := fun A B k r =>
  match r with
  | Ok a => k a
  | Raise e => Raise e
  end.

Definition or_raise {A} (o : option A) (e : exn) : result A :=
  match o with
  | Some a => Ok a
  | None => Raise e
  end.

(* ===================================================================== *)
(** * Python strings *)
(* ===================================================================== *)

Module Str.

(** [c in chars] *)
Fixpoint mem (c : ascii) (chars : string) : bool :=
  match chars with
  | EmptyString => false
  | String a rest => Ascii.eqb a c || mem c rest
  end.

(** [s.lstrip(chars)]: drops every leading character of [s] that occurs in
    [chars]; [chars] is a set of characters, not a prefix. *)
Fixpoint lstrip (chars s : string) : string :=
  match s with
  | EmptyString => EmptyString
  | String c rest => if mem c chars then lstrip chars rest else s
  end.

(** [s.split(sep)] for a one-character separator. *)
Fixpoint split (sep : ascii) (s : string) : list string :=
  match s with
  | EmptyString => [EmptyString]
  | String c rest =>
      if Ascii.eqb c sep then EmptyString :: split sep rest
      else match split sep rest with
           | w :: ws => String c w :: ws
           | [] => [String c EmptyString]
           end
  end.

(** [s[n:]] *)
Fixpoint slice_from (n : nat) (s : string) : string :=
  match n, s with
  | O, _ => s
  | S _, EmptyString => EmptyString
  | S n', String _ rest => slice_from n' rest
  end.

(** [s[:n]] *)
Fixpoint slice_to (n : nat) (s : string) : string :=
  match n, s with
  | O, _ => EmptyString
  | S _, EmptyString => EmptyString
  | S n', String c rest => String c (slice_to n' rest)
  end.

(** [s.rfind(c)], [None] standing for [-1]. *)
Fixpoint rfind (c : ascii) (s : string) : option nat :=
  match s with
  | EmptyString => None
  | String a rest =>
      match rfind c rest with
      | Some i => Some (S i)
      | None => if Ascii.eqb a c then Some 0 else None
      end
  end.

(** [sub in s] for the two-character string ["**"]. *)
Fixpoint has_double_star (s : string) : bool :=
  match s with
  | EmptyString => false
  | String a rest =>
      match rest with
      | EmptyString => false
      | String b _ =>
          (Ascii.eqb a "*"%char && Ascii.eqb b "*"%char) || has_double_star rest
      end
  end.

(** The first character of [s], if any, is none of [chars]. *)
Definition starts_outside (chars s : string) : bool :=
  match s with
  | EmptyString => true
  | String c _ => negb (mem c chars)
  end.

(** [PurePath.stem]: the name without its last suffix. *)
Definition stem (name : string) : string :=
  match rfind "."%char name with
  | Some i =>
      if (0 <? i) && (i <? String.length name - 1) then slice_to i name
      else name
  | None => name
  end.

End Str.

(* ===================================================================== *)
(** * Shell-style patterns: [fnmatch], [glob], [Path.rglob] *)
(* ===================================================================== *)

Module Fnmatch.

(** The pieces [fnmatch.translate] cuts a pattern into. *)
Inductive tok : Type :=
  | TStar                                   (* [*]     any run of characters *)
  | TOne                                    (* [?]     any one character *)
  | TChar (c : ascii)                       (* a literal character *)
  | TClass (negate : bool) (stuff : string) (* [[seq]] or [[!seq]] *).

Definition between (lo c hi : ascii) : bool :=
  (N_of_ascii lo <=? N_of_ascii c)%N && (N_of_ascii c <=? N_of_ascii hi)%N.

(** Membership in the body of a bracket expression: single characters and
    ranges [lo-hi]. *)
Fixpoint in_class (stuff : string) (c : ascii) : bool :=
  match stuff with
  | EmptyString => false
  | String lo rest =>
      match rest with
      | String dash (String hi rest') =>
          if Ascii.eqb dash "-"%char then between lo c hi || in_class rest' c
          else Ascii.eqb lo c || in_class rest c
      | _ => Ascii.eqb lo c || in_class rest c
      end
  end.

(** Scans to the next ["]"]: the text before it and the text after it. *)
Fixpoint until_rbracket (s : string) : option (string * string) :=
  match s with
  | EmptyString => None
  | String c rest =>
      if Ascii.eqb c "]"%char then Some (EmptyString, rest)
      else match until_rbracket rest with
           | Some (a, r) => Some (String c a, r)
           | None => None
           end
  end.

(** What follows a ["["]: an optional ["!"], then an optional ["]"] that
    belongs to the set, then everything up to the closing ["]"].  [None]
    when the bracket is never closed. *)
Definition class_end (s : string) : option (string * string) :=
  let '(p1, s1) :=
    match s with
    | String c rest => if Ascii.eqb c "!"%char then ("!", rest) else ("", s)
    | EmptyString => ("", s)
    end in
  let '(p2, s2) :=
    match s1 with
    | String c rest => if Ascii.eqb c "]"%char then ("]", rest) else ("", s1)
    | EmptyString => ("", s1)
    end in
  match until_rbracket s2 with
  | Some (a, r) => Some (p1 +:+ p2 +:+ a, r)
  | None => None
  end.

(** [fnmatch.translate], one step per character or bracket expression;
    the fuel is the length of the pattern. *)
Fixpoint translate_from (fuel : nat) (pat : string) : list tok :=
  match fuel with
  | O => []
  | S fuel' =>
      match pat with
      | EmptyString => []
      | String c rest =>
          if Ascii.eqb c "*"%char then TStar :: translate_from fuel' rest
          else if Ascii.eqb c "?"%char then TOne :: translate_from fuel' rest
          else if Ascii.eqb c "["%char then
            match class_end rest with
            | None => TChar "["%char :: translate_from fuel' rest
            | Some (stuff, rest') =>
                match stuff with
                | String b body =>
                    if Ascii.eqb b "!"%char then TClass true body
                    else TClass false stuff
                | EmptyString => TClass false stuff
                end :: translate_from fuel' rest'
            end
          else TChar c :: translate_from fuel' rest
      end
  end.

Definition translate (pat : string) : list tok :=
  translate_from (String.length pat) pat.

(** The translated pattern must match the whole name. *)
Fixpoint matches (p : list tok) (s : string) : bool :=
  match p with
  | [] => match s with EmptyString => true | _ => false end
  | TStar :: p' =>
      (fix star (s : string) : bool :=
         matches p' s ||
         match s with
         | EmptyString => false
         | String _ rest => star rest
         end) s
  | TOne :: p' =>
      match s with
      | EmptyString => false
      | String _ rest => matches p' rest
      end
  | TChar c :: p' =>
      match s with
      | EmptyString => false
      | String a rest => Ascii.eqb c a && matches p' rest
      end
  | TClass negate stuff :: p' =>
      match s with
      | EmptyString => false
      | String a rest => xorb negate (in_class stuff a) && matches p' rest
      end
  end.

(** The token of a character that does not open a bracket expression. *)
Definition plain (c : ascii) : tok :=
  if Ascii.eqb c "*"%char then TStar
  else if Ascii.eqb c "?"%char then TOne
  else TChar c.

(** [fnmatch.fnmatchcase(name, pat)] *)
Definition fnmatch (name pat : string) : bool := matches (translate pat) name.

End Fnmatch.

(* ===================================================================== *)
(** * Python truth values *)
(* ===================================================================== *)

(** [bool(x)] falls back on [True] for an object whose class defines neither
    [__bool__] nor [__len__].  Generators and bound methods are such
    objects: testing one in an [if] never looks at what it would produce. *)
Definition bool_of_generator {A} (g : result (list A)) : bool := true.
Definition bool_of_method {A} (m : unit -> A) : bool := true.

(* ===================================================================== *)
(** * The model: tables, the local store, the five functions *)
(* ===================================================================== *)

Section DataParsing.

(** Python's [float] objects and the builtin conversions [float(str)] and
    [int(str)]; [None] stands for the [ValueError] they raise. *)
Context {pyfloat : Type}.
Variable float : string -> option pyfloat.
Variable int : string -> option Z.

(** ** astropy tables *)

Inductive cell : Type :=
  | CFloat (x : pyfloat)
  | CStr (s : string)
  | CMasked.

Inductive meta_val : Type :=
  | MFloat (x : pyfloat)
  | MStr (s : string)
  | MList (l : list string).

(** A [Table]: named columns in order, and the [meta] dictionary. *)
Record Table : Type := {
  columns : list (string * list cell);
  meta : gmap string meta_val
}.

Definition colnames (t : Table) : list string := (columns t).*1.

(** [t[name]] *)
Definition get_col (name : string) (t : Table) : option (list cell) :=
  snd <$> List.find (fun c => String.eqb c.1 name) (columns t).

(** [len(t)]: the length of the first column, 0 without columns. *)
Definition len (t : Table) : nat :=
  match columns t with
  | [] => 0
  | (_, d) :: _ => length d
  end.

(** [bool(t)]: [Table] defines [__len__] and no [__bool__]. *)
Definition bool_of_table (t : Table) : bool := 0 <? len t.

(** [t.add_columns(cols)] for columns of the table's length under new
    names: they are appended on the right. *)
Definition add_columns (cols : list (string * list cell)) (t : Table) : Table :=
  {| columns := columns t ++ cols; meta := meta t |}.

(** [t.meta[key] = v] *)
Definition set_meta (key : string) (v : meta_val) (t : Table) : Table :=
  {| columns := columns t; meta := <[key := v]> (meta t) |}.

(** [Column(data=np.full(n, v), name=name)] *)
Definition full_column (name : string) (n : nat) (v : cell) : string * list cell :=
  (name, replicate n v).

(** How [vstack] merges a key present in both [meta] dictionaries: lists
    are concatenated, otherwise the right-hand value is kept. *)
Definition merge_val (l r : meta_val) : option meta_val :=
  Some match l, r with
       | MList a, MList b => MList (a ++ b)
       | _, _ => r
       end.

Definition col_or_masked (name : string) (t : Table) : list cell :=
  match get_col name t with
  | Some d => d
  | None => replicate (len t) CMasked
  end.

(** [vstack([t1, t2])] with the default outer join: the columns of [t1] in
    their order, then those only [t2] has; each output column is the rows
    of [t1] followed by the rows of [t2], masked where a table lacks the
    column. *)
Definition vstack (t1 t2 : Table) : Table :=
  let names :=
    colnames t1 ++
    List.filter (fun n => negb (bool_decide (n ∈ colnames t1))) (colnames t2) in
  {| columns := (fun n => (n, col_or_masked n t1 ++ col_or_masked n t2)) <$> names;
     meta := union_with merge_val (meta t1) (meta t2) |}.

(** ** The local store *)

(** What the astropy reader returns for a spectral file: the comment lines
    of the header, if the file has any, and the two data columns. *)
Record Spectrum : Type := {
  comments : option (list string);
  data : list (pyfloat * pyfloat)
}.

(** A regular file below [meta.spectra_dir]. *)
Record SpectralFile : Type := {
  sf_name : string;             (* last path component *)
  sf_subdir : bool;             (* false: directly in the directory *)
  sf_read : result Spectrum     (* outcome of [Table.read(f, format='ascii')] *)
}.

(** A regular file below [meta.table_dir]. *)
Record TableFile : Type := {
  tf_name : string;
  tf_subdir : bool;
  tf_read : result Table        (* outcome of [ascii.read(f, format='cds')] *)
}.

(** The two directories list the regular files below them in the order the
    operating system returns them.  Patterns are matched against the last
    path component: the model covers object ids without a path separator. *)
Record Store : Type := {
  data_is_available : bool;
  spectra_dir : list SpectralFile;
  table_dir : list TableFile
}.

(** Modelled from the spec: [_raise_for_data] of [_data_download.py], the
    delegated check that fails with [DataUnavailable] when the local data
    has not been fetched. *)
Definition _raise_for_data (st : Store) : result unit :=
  if data_is_available st then Ok tt else Raise DataUnavailable.

(** Modelled from the spec: [utils.build_pbar], the progress-bar decoration
    of an iterable; it hands the same elements on in the same order. *)
Definition build_pbar {A} (iterable : list A) (verbose : bool) : list A := iterable.

(** [dir.rglob(pattern)] for a one-component pattern: a generator over the
    files below [dir] whose name matches.  A component that contains ["**"]
    without being equal to it is refused when the generator starts. *)
Definition rglob {A} (name : A -> string) (dir : list A) (pattern : string)
  : result (list A) :=
  if Str.has_double_star pattern then
    Raise (ValueError "Invalid pattern: '**' can only be an entire path component")
  else Ok (List.filter (fun f => Fnmatch.fnmatch (name f) pattern) dir).

(** [glob(str(dir / pattern))]: the entries directly in [dir] whose name
    matches. *)
Definition glob (dir : list SpectralFile) (pattern : string) : list SpectralFile :=
  List.filter (fun f => negb (sf_subdir f) && Fnmatch.fnmatch (sf_name f) pattern) dir.

(** [(dir / name).exists()] *)
Definition path_exists (dir : list TableFile) (name : string) : bool :=
  existsb (fun f => negb (tf_subdir f) && String.eqb (tf_name f) name) dir.

(** [ascii.read(str(dir / name), format='cds', readme=...)] *)
Definition ascii_read (dir : list TableFile) (name : string) : result Table :=
  match List.find (fun f => negb (tf_subdir f) && String.eqb (tf_name f) name) dir with
  | Some f => tf_read f
  | None => Raise (FileNotFoundError name)
  end.

(** [Table.read(f, format='ascii', names=['wavelength', 'flux'])] *)
Definition Table_read (f : SpectralFile) : result Table :=
  s ← sf_read f;
  Ok {| columns := [("wavelength", (fun r => CFloat r.1) <$> data s);
                    ("flux", (fun r => CFloat r.2) <$> data s)];
        meta := match comments s with
                | Some c => {["comments" := MList c]}
                | None => ∅
                end |}.

(** ** Small steps of the function bodies *)

(** [t.meta['comments']] *)
Definition meta_comments (t : Table) : result (list string) :=
  match meta t !! "comments" with
  | Some (MList c) => Ok c
  | _ => Raise (KeyError "comments")
  end.

(** [l[i]] *)
Definition getitem (l : list string) (i : nat) : result string :=
  or_raise (l !! i) (IndexError "list index out of range").

(** [float(s)] *)
Definition to_float (s : string) : result pyfloat :=
  or_raise (float s) (ValueError ("could not convert string to float: " +:+ s)).

(** [int(s)] *)
Definition to_int (s : string) : result Z :=
  or_raise (int s) (ValueError ("invalid literal for int() with base 10: " +:+ s)).

(** [_, _, a, b, c = parts] *)
Definition unpack5 (parts : list string) : result (string * string * string) :=
  match parts with
  | [_; _; a; b; c] => Ok (a, b, c)
  | _ => Raise (ValueError "wrong number of values to unpack (expected 5)")
  end.

(** ** [get_available_tables] *)

(** The body of the [for] loop, run over the files the generator yields. *)
Fixpoint table_nums_of (files : list TableFile) : result (list Z) :=
  match files with
  | [] => Ok []
  | f :: rest =>
      n ← to_int (Str.lstrip "table" (Str.stem (tf_name f)));
      ns ← table_nums_of rest;
      Ok (n :: ns)
  end.

Definition get_available_tables (st : Store) : result (list Z) :=
  files ← rglob tf_name (table_dir st) "table*.dat";
  table_nums_of files.

(** ** [load_table] *)

Definition load_table (st : Store) (table_num : Z) : result Table :=
  _ ← _raise_for_data st;
  let table_path := "table" +:+ pretty table_num +:+ ".dat" in
  (* [if not table_path.exists:] tests the bound method, not its result *)
  if negb (bool_of_method (fun _ : unit => path_exists (table_dir st) table_path)) then
    Raise (ValueError ("Table " +:+ pretty table_num +:+ " is not available."))
  else ascii_read (table_dir st) table_path.

(** ** [get_available_ids] *)

(** ['20' + Path(f).name.split('_')[0].lstrip('SN')] *)
Definition id_of_name (name : string) : string :=
  "20" +:+ Str.lstrip "SN" (default "" (head (Str.split "_" name))).

Definition get_available_ids (st : Store) : result (list string) :=
  _ ← _raise_for_data st;
  let files := glob (spectra_dir st) "SN*.dat" in
  let ids := (fun f => id_of_name (sf_name f)) <$> files in
  Ok (elements (list_to_set ids : gset string)).

(** ** [get_data_for_id] *)

(** [f'SN{obj_id[2:]}_*.dat'] *)
Definition spectra_pattern (obj_id : string) : string :=
  "SN" +:+ Str.slice_from 2 obj_id +:+ "_*.dat".

(** The columns of the aggregated table, and those of a per-file table once
    [add_columns] has run. *)
Definition out_names : list string :=
  ["date"; "wavelength"; "flux"; "epoch"; "wavelength_range"; "telescope"; "instrument"].

Definition file_names : list string :=
  ["wavelength"; "flux"; "date"; "epoch"; "wavelength_range"; "telescope"; "instrument"].

(** The empty table the aggregation starts from. *)
Definition empty_out_table : Table :=
  {| columns := (fun n => (n, [])) <$> out_names; meta := ∅ |}.

(** The local variables one turn of the loop binds. *)
Record FileVars : Type := {
  spectral_data : Table;   (* after [add_columns] *)
  redshift : pyfloat;
  max_date : pyfloat;
  obs_date : pyfloat;
  epoch : pyfloat;
  wrange : string;
  telescope : string;
  instrument : string
}.

(** One turn of [for f in files:] up to and including [add_columns]. *)
Definition read_file (f : SpectralFile) : result FileVars :=
  spectral_data ← Table_read f;
  file_comments ← meta_comments spectral_data;
  c1 ← getitem file_comments 1;
  redshift ← to_float (Str.lstrip "Redshift: " c1);
  c2 ← getitem file_comments 2;
  max_date ← to_float (Str.lstrip "JDate_of_max: " c2);
  c3 ← getitem file_comments 3;
  obs_date ← to_float (Str.lstrip "JDate_of_observation: " c3);
  c4 ← getitem file_comments 4;
  epoch ← to_float (Str.lstrip "Epoch: " c4);
  '(wrange, telescope, instrument) ← unpack5 (Str.split "_" (Str.stem (sf_name f)));
  let n := len spectral_data in
  let date_col := full_column "date" n (CFloat obs_date) in
  let epoch_col := full_column "epoch" n (CFloat epoch) in
  let wr_col := full_column "wavelength_range" n (CStr wrange) in
  let tel_col := full_column "telescope" n (CStr telescope) in
  let inst_col := full_column "instrument" n (CStr instrument) in
  Ok {| spectral_data :=
          add_columns [date_col; epoch_col; wr_col; tel_col; inst_col] spectral_data;
        redshift := redshift; max_date := max_date; obs_date := obs_date;
        epoch := epoch; wrange := wrange; telescope := telescope;
        instrument := instrument |}.

(** The loop: [out_table] grows by [vstack]; [bound] holds the values of
    [redshift] and [max_date] once a turn has assigned them. *)
Fixpoint for_files (files : list SpectralFile) (out_table : Table)
    (bound : option (pyfloat * pyfloat))
  : result (Table * option (pyfloat * pyfloat)) :=
  match files with
  | [] => Ok (out_table, bound)
  | f :: rest =>
      v ← read_file f;
      for_files rest (vstack out_table (spectral_data v))
                (Some (redshift v, max_date v))
  end.

Definition get_data_for_id (st : Store) (obj_id : string) : result Table :=
  _ ← _raise_for_data st;
  let out_table := empty_out_table in
  let files := rglob sf_name (spectra_dir st) (spectra_pattern obj_id) in
  (* [if not files:] tests the generator object *)
  if negb (bool_of_generator files) then
    Raise (ValueError ("No data found for obj_id " +:+ obj_id))
  else
    fs ← files;
    '(out_table, bound) ← for_files fs out_table None;
    match bound with
    | None => Raise (UnboundLocalError "redshift")
    | Some (redshift, max_date) =>
        Ok (set_meta "obj_id" (MStr obj_id)
             (set_meta "JDate_of_max" (MFloat max_date)
               (set_meta "redshift" (MFloat redshift) out_table)))
    end.

(** ** [iter_data] *)

(** What a consumer draws from a generator: the values yielded, and the
    exception that ended the iteration, if one did. *)
Definition Yields (A : Type) : Type := (list A * option exn)%type.

Fixpoint iter_ids (st : Store) (ids : list string) : Yields Table :=
  match ids with
  | [] => ([], None)
  | id_val :: rest =>
      match get_data_for_id st id_val with
      | Raise e => ([], Some e)
      | Ok data_table =>
          let '(ys, e) := iter_ids st rest in
          if bool_of_table data_table then (data_table :: ys, e) else (ys, e)
      end
  end.

Definition iter_data (verbose : bool) (st : Store) : Yields Table :=
  match get_available_ids st with
  | Raise e => ([], Some e)
  | Ok ids => iter_ids st (build_pbar ids verbose)
  end.

(** A call of [iter_data] with keyword arguments: Python binds them to the
    signature [iter_data(verbose=False)] before the body runs. *)
Inductive pyarg : Type :=
  | ABool (b : bool)
  | AFunc (f : Table -> bool).

Definition call_iter_data (kwargs : list (string * pyarg)) (st : Store)
  : Yields Table :=
  match List.find (fun kv => negb (String.eqb kv.1 "verbose")) kwargs with
  | Some (k, _) =>
      ([], Some (TypeError
                   ("iter_data() got an unexpected keyword argument '" +:+ k +:+ "'")))
  | None =>
      let verbose :=
        match List.find (fun kv => String.eqb kv.1 "verbose") kwargs with
        | Some (_, ABool b) => b
        | Some (_, AFunc _) => true
        | None => false
        end in
      iter_data verbose st
  end.

(** ** The names the specification uses for the module's errors *)

Definition ObjectNotFound (obj_id : string) : exn :=
  ValueError ("No data found for obj_id " +:+ obj_id).

Definition TableNotFound (table_num : Z) : exn :=
  ValueError ("Table " +:+ pretty table_num +:+ " is not available.").

(** ** Vocabulary for the properties *)

(** Column [name] of the tables [ts] laid end to end. *)
Definition stacked (name : string) (ts : list Table) : list cell :=
  concat (col_or_masked name <$> ts).

Definition stack_all (ts : list Table) : list (string * list cell) :=
  (fun n => (n, stacked n ts)) <$> out_names.

(** The loop of [get_data_for_id] as a fold over the values it reads. *)
Definition stack_files (out : Table) (vs : list FileVars) : Table :=
  foldl (fun acc v => vstack acc (spectral_data v)) out vs.

Definition last_bound (b : option (pyfloat * pyfloat)) (vs : list FileVars)
  : option (pyfloat * pyfloat) :=
  match last vs with
  | Some v => Some (redshift v, max_date v)
  | None => b
  end.

(** A per-file table: its columns are [file_names] and each has [len t] cells. *)
Definition regular (t : Table) : Prop :=
  colnames t = file_names /\
  forall n, n ∈ out_names -> length (col_or_masked n t) = len t.

(** The number of data rows of a file, 0 if the reader rejects it. *)
Definition file_rows (f : SpectralFile) : nat :=
  match sf_read f with
  | Ok s => length (data s)
  | Raise _ => 0
  end.

(** The file parses: one turn of the loop runs through on it. *)
Definition parses (f : SpectralFile) : Prop :=
  exists v, read_file f = Ok v.

(** The value [v] fills a whole column of [t]. *)
Definition broadcast (v : cell) (t : Table) : Prop :=
  exists name, get_col name t = Some (replicate (len t) v).

(** The broadcast rule in the words of the specification: the four header
    values and the telescope and instrument codes fill a column each, the
    wavelength-range code does not. *)
Definition spec_broadcast (v : FileVars) : Prop :=
  let t := spectral_data v in
  broadcast (CFloat (redshift v)) t /\
  broadcast (CFloat (max_date v)) t /\
  broadcast (CFloat (obs_date v)) t /\
  broadcast (CFloat (epoch v)) t /\
  broadcast (CStr (telescope v)) t /\
  broadcast (CStr (instrument v)) t /\
  ~ broadcast (CStr (wrange v)) t.

(** The round trip between the enumerator and the aggregator in the words of
    the specification, for the file [SN<suffix>_<rest>.dat]. *)
Definition spec_round_trip (suffix rest : string) : Prop :=
  let name := "SN" +:+ suffix +:+ "_" +:+ rest +:+ ".dat" in
  id_of_name name = "20" +:+ suffix /\
  Fnmatch.fnmatch name (spectra_pattern (id_of_name name)) = true.

(** The rows of the spectrum [s] sit in the columns [wl] and [fl], from row
    [k] on. *)
Definition rows_at (s : Spectrum) (wl fl : list cell) (k : nat) : Prop :=
  forall i r, data s !! i = Some r ->
    wl !! (k + i) = Some (CFloat r.1) /\ fl !! (k + i) = Some (CFloat r.2).

(** ** The scenario of the specification *)

Definition scenario_header (first : string) : list string :=
  [first; "Redshift: 0.01"; "JDate_of_max: 2451200.0";
   "JDate_of_observation: 2451210.5"; "Epoch: 10.5"].

Definition scenario_file (name first : string) (rows : list (pyfloat * pyfloat))
  : SpectralFile :=
  {| sf_name := name; sf_subdir := false;
     sf_read := Ok {| comments := Some (scenario_header first); data := rows |} |}.

(** What the specification expects of [load_object] in the scenario, for the
    object id [obj_id]. *)
Definition spec_scenario (obj_id : string) (z : pyfloat) (r : result Table) : Prop :=
  exists t wr,
    r = Ok t /\ len t = 6 /\
    meta t !! "obj_id" = Some (MStr obj_id) /\
    meta t !! "redshift" = Some (MFloat z) /\
    get_col "wavelength_range" t = Some wr /\
    forall c, c ∈ wr <-> c = CStr "opt" \/ c = CStr "ir".

End DataParsing.

Arguments Table : clear implicits.
Arguments cell : clear implicits.
Arguments meta_val : clear implicits.
Arguments Spectrum : clear implicits.
Arguments SpectralFile : clear implicits.
Arguments TableFile : clear implicits.
Arguments Store : clear implicits.
Arguments FileVars : clear implicits.
Arguments pyarg : clear implicits.

(* ===================================================================== *)
(** * Decimal numerals: the conversions used in the concrete scenarios *)
(* ===================================================================== *)

(** [float] and [int] restricted to plain decimal numerals, an optional
    minus sign, digits and, for [float], one optional point.  A float is
    represented by the rational its numeral denotes. *)
Module Numerals.

Fixpoint digits (s : string) (acc : Z) : option Z :=
  match s with
  | EmptyString => Some acc
  | String c rest =>
      match Ascii.is_nat c with
      | Some d => digits rest (10 * acc + Z.of_nat d)
      | None => None
      end
  end.

Definition unsigned (s : string) : option Z :=
  match s with
  | EmptyString => None
  | _ => digits s 0
  end.

Definition signed {A} (num : string -> option A) (neg : A -> A) (s : string)
  : option A :=
  match s with
  | String c rest => if Ascii.eqb c "-"%char then neg <$> num rest else num s
  | EmptyString => None
  end.

Definition int : string -> option Z := signed unsigned Z.opp.

Definition unsigned_float (s : string) : option Q :=
  match Str.split "."%char s with
  | [i] => (fun n => Qmake n 1) <$> unsigned i
  | [i; f] =>
      (fun n => Qred (Qmake n (Z.to_pos (10 ^ Z.of_nat (String.length f)))))
        <$> unsigned (i +:+ f)
  | _ => None
  end.

Definition float : string -> option Q := signed unsigned_float Qopp.

End Numerals.

(* ===================================================================== *)
(** * Concrete stores *)
(* ===================================================================== *)

(** The two files of the scenario, three rows apiece, in a fetched store. *)
Definition scenario_opt : SpectralFile Q :=
  scenario_file "SN1999aa_ref_opt_tel1_inst1.dat" "SN1999aa optical"
    [(Qmake 4000 1, Qmake 11 10); (Qmake 4010 1, Qmake 12 10); (Qmake 4020 1, Qmake 13 10)].

Definition scenario_ir : SpectralFile Q :=
  scenario_file "SN1999aa_ref_ir_tel2_inst2.dat" "SN1999aa infrared"
    [(Qmake 9000 1, Qmake 5 10); (Qmake 9010 1, Qmake 6 10); (Qmake 9020 1, Qmake 7 10)].

Definition scenario_store : Store Q :=
  {| data_is_available := true;
     spectra_dir := [scenario_opt; scenario_ir];
     table_dir := [] |}.

(** A fetched store with the spectra of one object, one of them without
    data rows, and two published tables. *)
Definition one_row_file : SpectralFile Q :=
  scenario_file "SN05hc_b01_opt_DUP_BC.dat" "SN05hc" [(Qmake 4000 1, Qmake 11 10)].

Definition no_row_file : SpectralFile Q :=
  scenario_file "SN06ab_b01_opt_DUP_BC.dat" "SN06ab" [].

Definition small_table : Table Q :=
  {| columns := [("SN", [CStr "2005hc"])]; meta := ∅ |}.

Definition fetched_store : Store Q :=
  {| data_is_available := true;
     spectra_dir := [one_row_file; no_row_file];
     table_dir := [ {| tf_name := "table1.dat"; tf_subdir := false; tf_read := Ok small_table |};
                    {| tf_name := "table2.dat"; tf_subdir := false; tf_read := Ok small_table |} ] |}.

(** A store whose data has not been fetched: the directories do not exist. *)
Definition unfetched_store : Store Q :=
  {| data_is_available := false; spectra_dir := []; table_dir := [] |}.

(** A fetched store holding one spectrum whose name has a bracket
    expression where the object suffix stands. *)
Definition bracket_file : SpectralFile Q :=
  scenario_file "SN[a]_x_opt_DUP_BC.dat" "SN[a]" [(Qmake 4000 1, Qmake 11 10)].

Definition bracket_store : Store Q :=
  {| data_is_available := true; spectra_dir := [bracket_file]; table_dir := [] |}.

(** The predicate of the repository's filtering test: the object id is one
    of the selected ids. *)
Definition filter_func (filter_ids : list string) (data_table : Table Q) : bool :=
  match meta data_table !! "obj_id" with
  | Some (MStr obj_id) => bool_decide (obj_id ∈ filter_ids)
  | _ => false
  end.

(** The local variables [read_file] binds on [one_row_file]. *)
Definition one_row_vars : FileVars Q :=
  {| spectral_data :=
       {| columns :=
            [("wavelength", [CFloat (Qmake 4000 1)]);
             ("flux", [CFloat (Qmake 11 10)]);
             ("date", [CFloat (Qmake 4902421 2)]);
             ("epoch", [CFloat (Qmake 21 2)]);
             ("wavelength_range", [CStr "opt"]);
             ("telescope", [CStr "DUP"]);
             ("instrument", [CStr "BC"])];
          meta := {["comments" := MList (scenario_header "SN05hc")]} |};
     redshift := Qmake 1 100; max_date := Qmake 2451200 1;
     obs_date := Qmake 4902421 2; epoch := Qmake 21 2;
     wrange := "opt"; telescope := "DUP"; instrument := "BC" |}.

(** A second spectrum of the same object whose header disagrees with the
    first on the redshift and the date of maximum. *)
Definition late_file : SpectralFile Q :=
  {| sf_name := "SN05hc_b02_ir_BAA_IM.dat"; sf_subdir := false;
     sf_read := Ok {| comments := Some ["SN05hc"; "Redshift: 0.02"; "JDate_of_max: 2453668.0";
                                        "JDate_of_observation: 2453670.5"; "Epoch: 2.5"];
                      data := [(Qmake 9000 1, Qmake 5 10); (Qmake 9010 1, Qmake 6 10)] |} |}.

Definition late_vars : FileVars Q :=
  {| spectral_data :=
       {| columns :=
            [("wavelength", [CFloat (Qmake 9000 1); CFloat (Qmake 9010 1)]);
             ("flux", [CFloat (Qmake 5 10); CFloat (Qmake 6 10)]);
             ("date", [CFloat (Qmake 4907341 2); CFloat (Qmake 4907341 2)]);
             ("epoch", [CFloat (Qmake 5 2); CFloat (Qmake 5 2)]);
             ("wavelength_range", [CStr "ir"; CStr "ir"]);
             ("telescope", [CStr "BAA"; CStr "BAA"]);
             ("instrument", [CStr "IM"; CStr "IM"])];
          meta := {["comments" := MList ["SN05hc"; "Redshift: 0.02"; "JDate_of_max: 2453668.0";
                                         "JDate_of_observation: 2453670.5"; "Epoch: 2.5"]]} |};
     redshift := Qmake 1 50; max_date := Qmake 2453668 1;
     obs_date := Qmake 4907341 2; epoch := Qmake 5 2;
     wrange := "ir"; telescope := "BAA"; instrument := "IM" |}.

Definition disagreeing_store : Store Q :=
  {| data_is_available := true;
     spectra_dir := [one_row_file; late_file];
     table_dir := [] |}.

(* ===================================================================== *)
(** * Proof automation *)
(* ===================================================================== *)

(** Closed goals are settled by evaluation. *)
Ltac conjuncts := repeat match goal with |- _ /\ _ => split end.
Ltac evaluate := conjuncts; vm_compute; reflexivity.

(** One case per output column. *)
Ltac each_out_name H :=
  unfold out_names in H;
  repeat (apply elem_of_cons in H as [-> | H]);
  [.. | by apply elem_of_nil in H].

(* ===================================================================== *)
(** * Further vocabulary and the callers in the repository's tests *)
(* ===================================================================== *)

(** What a [unittest] test method ends with: it passes, an assertion fails,
    or an exception escapes it. *)
Inductive Outcome : Type :=
  | Passed
  | Failed
  | Errored (e : exn).

Section Callers.

Context {pyfloat : Type}.
Variable float : string -> option pyfloat.

(** The cells of row [i] of a table, in column order; [None] where a column
    is shorter. *)
Definition getrow (t : Table pyfloat) (i : nat) : list (option (cell pyfloat)) :=
  (fun c => c.2 !! i) <$> columns t.

(** How Python binds the keyword arguments of a call to the signature
    [iter_data(verbose=False)]: the value of [verbose], or the [TypeError]
    raised at the call. *)
Definition bind_iter_data (kwargs : list (string * pyarg pyfloat)) : result bool :=
  match List.find (fun kv => negb (String.eqb kv.1 "verbose")) kwargs with
  | Some (k, _) =>
      Raise (TypeError ("iter_data() got an unexpected keyword argument '" +:+ k +:+ "'"))
  | None =>
      Ok match List.find (fun kv => String.eqb kv.1 "verbose") kwargs with
         | Some (_, ABool b) => b
         | Some (_, AFunc _) => true
         | None => false
         end
  end.

(** ** [GeneralTests._test_empty_data] *)

(** [i >= lim], with [None] for the default [float('inf')]. *)
Definition reached (lim : option nat) (i : nat) : bool :=
  match lim with
  | Some l => l <=? i
  | None => false
  end.

(** The loop [for i, input_table in enumerate(...)] over what the generator
    yields and ends with. *)
Fixpoint check_not_empty (lim : option nat) (i : nat) (tables : list (Table pyfloat))
    (ending : option exn) : Outcome :=
  match tables with
  | [] =>
      match ending with
      | Some e => Errored e
      | None => Passed
      end
  | input_table :: rest =>
      if reached lim i then Passed
      else
        match meta input_table !! "obj_id" with
        | None => Errored (KeyError "obj_id")
        | Some obj_id =>
            if bool_of_table input_table then check_not_empty lim (S i) rest ending
            else Failed
        end
  end.

Definition _test_empty_data (lim : option nat) (st : Store pyfloat) : Outcome :=
  let '(tables, ending) := iter_data float false st in
  check_not_empty lim 0 tables ending.

(** ** [GeneralTests._test_table_filtering] *)

(** [l[:lim]], with [None] for the default [None]. *)
Definition upto {A} (lim : option nat) (l : list A) : list A :=
  match lim with
  | Some n => take n l
  | None => l
  end.

(** The nested [filter_func] of the test: [data_table.meta['obj_id'] in filter_ids]. *)
Definition in_filter_ids (filter_ids : list string) (data_table : Table pyfloat)
  : result bool :=
  match meta data_table !! "obj_id" with
  | None => Raise (KeyError "obj_id")
  | Some (MStr obj_id) => Ok (bool_decide (obj_id ∈ filter_ids))
  | Some _ => Ok false
  end.

(** The loop over [islice(..., 0, lim)]. *)
Fixpoint check_filtered (lim : option nat) (filter_ids : list string)
    (tables : list (Table pyfloat)) (ending : option exn) : Outcome :=
  match lim with
  | Some 0 => Passed
  | _ =>
      match tables with
      | [] =>
          match ending with
          | Some e => Errored e
          | None => Passed
          end
      | table :: rest =>
          match in_filter_ids filter_ids table with
          | Raise e => Errored e
          | Ok true => check_filtered (Nat.pred <$> lim) filter_ids rest ending
          | Ok false => Failed
          end
      end
  end.

Definition _test_table_filtering (lim : option nat) (st : Store pyfloat) : Outcome :=
  match get_available_ids st with
  | Raise e => Errored e
  | Ok ids =>
      let obj_ids := upto lim ids in
      let filter_ids := drop (length obj_ids / 2) obj_ids in
      let filter_func data_table :=
        match in_filter_ids filter_ids data_table with
        | Ok b => b
        | Raise _ => false
        end in
      match bind_iter_data [("filter_func", AFunc filter_func)] with
      | Raise e => Errored e
      | Ok verbose =>
          let '(tables, ending) := iter_data float verbose st in
          check_filtered lim filter_ids tables ending
      end
  end.

End Callers.

(** ** More concrete stores *)

(** A spectrum the reader returns without comment lines. *)
Definition headerless_file : SpectralFile Q :=
  {| sf_name := "SN05hc_b03_opt_DUP_BC.dat"; sf_subdir := false;
     sf_read := Ok {| comments := None; data := [(Qmake 4000 1, Qmake 11 10)] |} |}.

(** A fetched store where the second spectrum of an object is broken, and
    where one file of the table directory is not a numbered table. *)
Definition broken_store : Store Q :=
  {| data_is_available := true;
     spectra_dir := [one_row_file; headerless_file; late_file];
     table_dir := [ {| tf_name := "table1.dat"; tf_subdir := false; tf_read := Ok small_table |};
                    {| tf_name := "table_notes.dat"; tf_subdir := false;
                       tf_read := Raise (InconsistentTableError "no such table in ReadMe") |} ] |}.

(** A fetched store with a good object and one whose only spectrum is
    returned without comment lines. *)
Definition headerless_object_file : SpectralFile Q :=
  {| sf_name := "SN06zz_b01_opt_DUP_BC.dat"; sf_subdir := false;
     sf_read := Ok {| comments := None; data := [(Qmake 4000 1, Qmake 11 10)] |} |}.

Definition mixed_store : Store Q :=
  {| data_is_available := true;
     spectra_dir := [one_row_file; headerless_object_file];
     table_dir := [] |}.

(* ===================================================================== *)
(** * Sanity checks of the library model *)
(* ===================================================================== *)

Example fnmatch_plain : Fnmatch.fnmatch "SN05hc_b01_gen_DUP_BC.dat" "SN05hc_*.dat" = true.
Proof. reflexivity. Qed.

Example fnmatch_class :
  Fnmatch.fnmatch "SNa_x.dat" "SN[a]_*.dat" = true /\
  Fnmatch.fnmatch "SN[a]_x.dat" "SN[a]_*.dat" = false /\
  Fnmatch.fnmatch "SN[_x.dat" "SN[_*.dat" = true.
Proof. repeat split; reflexivity. Qed.

Example stem_dat : Str.stem "SN05hc_b01_gen_DUP_BC.dat" = "SN05hc_b01_gen_DUP_BC".
Proof. reflexivity. Qed.

Example split_underscore :
  Str.split "_"%char "SN05hc_b01_gen_DUP_BC" = ["SN05hc"; "b01"; "gen"; "DUP"; "BC"].
Proof. reflexivity. Qed.

Example lstrip_label : Str.lstrip "JDate_of_max: " "JDate_of_max: 2451200.0" = "2451200.0".
Proof. reflexivity. Qed.

(** [lstrip('SN')] strips a set of characters: a suffix that begins with [S]
    or [N] loses its first characters with the prefix. *)
Example id_of_name_examples :
  id_of_name "SN05hc_b01_gen_DUP_BC.dat" = "2005hc" /\
  id_of_name "SNNova1_b01_gen_DUP_BC.dat" = "20ova1".
Proof. repeat split; reflexivity. Qed.

Example decimal_float_examples :
  Numerals.float "0.01" = Some (Qmake 1 100) /\
  Numerals.float "2451210.5" = Some (Qmake 4902421 2) /\
  Numerals.float "-3.25" = Some (Qmake (-13) 4) /\
  Numerals.float "10" = Some (Qmake 10 1) /\
  Numerals.float "Epoch" = None.
Proof. repeat split; reflexivity. Qed.

Example decimal_int_examples :
  Numerals.int "12" = Some 12%Z /\ Numerals.int "" = None /\ Numerals.int "1a" = None.
Proof. repeat split; reflexivity. Qed.

(* ===================================================================== *)
(** * Facts about the string methods and the patterns *)
(* ===================================================================== *)

Section StringFacts.

Lemma string_app_cons (c : ascii) (s t : string) : String c s +:+ t = String c (s +:+ t).
Proof. reflexivity. Qed.

Lemma string_app_empty (t : string) : "" +:+ t = t.
Proof. reflexivity. Qed.

Lemma string_length_app (s t : string) :
  String.length (s +:+ t) = String.length s + String.length t.
Proof. induction s as [|c s IH]; [reflexivity|]. rewrite string_app_cons. simpl. by rewrite IH. Qed.


Lemma lstrip_outside (chars s : string) :
  Str.starts_outside chars s = true -> Str.lstrip chars s = s.
Proof.
  destruct s as [|c s]; [reflexivity|]. simpl.
  destruct (Str.mem c chars); [discriminate | reflexivity].
Qed.

Lemma split_first (sep : ascii) (s r : string) :
  Str.mem sep s = false ->
  Str.split sep (s +:+ String sep r) = s :: Str.split sep r.
Proof.
  induction s as [|c s IH]; intros Hs.
  - rewrite string_app_empty. simpl. by rewrite Ascii.eqb_refl.
  - simpl in Hs. apply orb_false_iff in Hs as [Hc Hs].
    rewrite string_app_cons. simpl. rewrite Hc, (IH Hs). reflexivity.
Qed.

Lemma has_double_star_app (s t : string) :
  Str.starts_outside "*" t = true ->
  Str.has_double_star (s +:+ t) = Str.has_double_star s || Str.has_double_star t.
Proof.
  intros Ht. induction s as [|a s IH]; [reflexivity|].
  rewrite string_app_cons. destruct s as [|b s].
  - rewrite string_app_empty. destruct t as [|b t]; [reflexivity|].
    cbn [Str.starts_outside Str.mem] in Ht. rewrite orb_false_r in Ht.
    apply negb_true_iff in Ht. rewrite Ascii.eqb_sym in Ht.
    cbn [Str.has_double_star]. rewrite Ht, andb_false_r. reflexivity.
  - rewrite string_app_cons in *. cbn [Str.has_double_star] in *.
    rewrite IH. by rewrite orb_assoc.
Qed.

End StringFacts.

Section FnmatchFacts.
Import Fnmatch.


Lemma translate_plain (s t : string) (n : nat) :
  Str.mem "["%char s = false ->
  translate_from (String.length s + n) (s +:+ t) =
  (plain <$> String.list_ascii_of_string s) ++ translate_from n t.
Proof.
  induction s as [|c s IH]; intros Hs; [reflexivity|].
  simpl in Hs. apply orb_false_iff in Hs as [Hc Hs].
  rewrite string_app_cons. cbn [String.length Nat.add translate_from String.list_ascii_of_string fmap list_fmap].
  rewrite (IH Hs). unfold plain.
  rewrite Hc.
  destruct (Ascii.eqb c "*"%char); [reflexivity|].
  destruct (Ascii.eqb c "?"%char); reflexivity.
Qed.

Lemma until_rbracket_shorter (s a r : string) :
  until_rbracket s = Some (a, r) -> String.length r < String.length s.
Proof.
  revert a. induction s as [|c s IH]; intros a; [discriminate|].
  cbn [until_rbracket String.length]. destruct (Ascii.eqb c "]").
  - intros [= _ ->]. lia.
  - destruct (until_rbracket s) as [[a' r']|]; [|discriminate].
    intros [= _ <-]. specialize (IH a' eq_refl). lia.
Qed.

Lemma class_end_shorter (s stuff r : string) :
  class_end s = Some (stuff, r) -> String.length r < String.length s.
Proof.
  unfold class_end.
  destruct s as [|c s]; [discriminate|].
  destruct (Ascii.eqb c "!").
  - destruct s as [|c' s]; [discriminate|].
    destruct (Ascii.eqb c' "]").
    + destruct (until_rbracket s) as [[a r']|] eqn:H; [|discriminate].
      intros [= _ <-]. apply until_rbracket_shorter in H. cbn [String.length]. lia.
    + destruct (until_rbracket (String c' s)) as [[a r']|] eqn:H; [|discriminate].
      intros [= _ <-]. apply until_rbracket_shorter in H. cbn [String.length] in *. lia.
  - destruct (Ascii.eqb c "]").
    + destruct (until_rbracket s) as [[a r']|] eqn:H; [|discriminate].
      intros [= _ <-]. apply until_rbracket_shorter in H. cbn [String.length]. lia.
    + destruct (until_rbracket (String c s)) as [[a r']|] eqn:H; [|discriminate].
      intros [= _ <-]. by apply until_rbracket_shorter in H.
Qed.

(** The length of the pattern is fuel enough: more changes nothing. *)
Lemma translate_from_enough (n m : nat) (pat : string) :
  String.length pat <= n -> String.length pat <= m ->
  translate_from n pat = translate_from m pat.
Proof.
  revert m pat. induction n as [|n IH]; intros m pat Hn Hm.
  - destruct pat; [|cbn [String.length] in Hn; lia]. by destruct m.
  - destruct pat as [|c rest]; [by destruct m|].
    destruct m as [|m]; cbn [String.length] in *; [lia|].
    cbn [translate_from].
    rewrite (IH m rest) by lia.
    destruct (class_end rest) as [[stuff rest']|] eqn:Hc; [|reflexivity].
    apply class_end_shorter in Hc. by rewrite (IH m rest') by lia.
Qed.

Lemma matches_star_here (p : list tok) (s : string) :
  matches p s = true -> matches (TStar :: p) s = true.
Proof. intros H. destruct s; simpl; by rewrite H. Qed.

Lemma matches_star_skip (p : list tok) (c : ascii) (s : string) :
  matches (TStar :: p) s = true -> matches (TStar :: p) (String c s) = true.
Proof. simpl. intros ->. apply orb_true_r. Qed.

Lemma matches_star_app (p : list tok) (r s : string) :
  matches p s = true -> matches (TStar :: p) (r +:+ s) = true.
Proof.
  intros H. induction r as [|c r IH].
  - by apply matches_star_here.
  - rewrite string_app_cons. by apply matches_star_skip.
Qed.

Lemma matches_char (c : ascii) (p : list tok) (s : string) :
  matches (TChar c :: p) (String c s) = matches p s.
Proof. cbn [matches]. by rewrite Ascii.eqb_refl. Qed.

Lemma matches_plain_self (s : string) (p : list tok) (r : string) :
  matches p r = true ->
  matches ((plain <$> String.list_ascii_of_string s) ++ p) (s +:+ r) = true.
Proof.
  intros H. induction s as [|c s IH]; [exact H|].
  rewrite string_app_cons. cbn [String.list_ascii_of_string fmap list_fmap app].
  unfold plain at 1.
  destruct (Ascii.eqb c "*"%char).
  - apply matches_star_skip, matches_star_here, IH.
  - destruct (Ascii.eqb c "?"%char); simpl; [exact IH|].
    by rewrite Ascii.eqb_refl, IH.
Qed.

(** A name matches the pattern made of its own first component, as long as
    that component opens no bracket expression. *)
Lemma fnmatch_own_prefix (suffix rest : string) :
  Str.mem "["%char suffix = false ->
  fnmatch ("SN" +:+ suffix +:+ "_" +:+ rest +:+ ".dat")
          ("SN" +:+ suffix +:+ "_*.dat") = true.
Proof.
  intros Hs. unfold fnmatch, translate.
  change ("SN" +:+ suffix +:+ "_*.dat")
    with (String "S" (String "N" (suffix +:+ "_*.dat"))).
  change ("SN" +:+ suffix +:+ "_" +:+ rest +:+ ".dat")
    with (String "S" (String "N" (suffix +:+ String "_" (rest +:+ ".dat")))).
  cbn [String.length]. rewrite string_length_app.
  cbn [translate_from]. change (Ascii.eqb "S" "*") with false.
  change (Ascii.eqb "S" "?") with false. change (Ascii.eqb "S" "[") with false.
  change (Ascii.eqb "N" "*") with false.
  change (Ascii.eqb "N" "?") with false. change (Ascii.eqb "N" "[") with false.
  cbv iota. rewrite (translate_plain _ _ _ Hs), !matches_char.
  apply matches_plain_self.
  change (translate_from (String.length "_*.dat") "_*.dat")
    with [TChar "_"; TStar; TChar "."; TChar "d"; TChar "a"; TChar "t"].
  rewrite matches_char. by apply matches_star_app.
Qed.

Lemma matches_star_prepend (p : list tok) (r s : string) :
  matches (TStar :: p) s = true -> matches (TStar :: p) (r +:+ s) = true.
Proof.
  intros H. induction r as [|c r IH]; [exact H|].
  rewrite string_app_cons. by apply matches_star_skip.
Qed.

(** A name of the form [SN..._....dat] matches the enumerator's pattern. *)
Lemma fnmatch_SN_dat (suffix rest : string) :
  fnmatch ("SN" +:+ suffix +:+ "_" +:+ rest +:+ ".dat") "SN*.dat" = true.
Proof.
  change (matches [TStar; TChar "."; TChar "d"; TChar "a"; TChar "t"]
            (suffix +:+ String "_" (rest +:+ ".dat")) = true).
  by apply matches_star_prepend, matches_star_skip, matches_star_app.
Qed.

End FnmatchFacts.

(* ===================================================================== *)
(** * The aggregator *)
(* ===================================================================== *)

Section Aggregation.
Context {pyfloat : Type} (float : string -> option pyfloat).

Lemma bind_Ok {A B} (r : result A) (k : A -> result B) (b : B) :
  r ≫= k = Ok b -> exists a, r = Ok a /\ k a = Ok b.
Proof. destruct r as [a|e]; [|discriminate]. intros H. by exists a. Qed.

Lemma or_raise_Ok {A} (o : option A) (e : exn) (a : A) :
  or_raise o e = Ok a -> o = Some a.
Proof. destruct o; [|discriminate]. by intros [= ->]. Qed.

Lemma unpack5_Ok (parts : list string) (a b c : string) :
  unpack5 parts = Ok (a, b, c) -> exists u1 u2, parts = [u1; u2; a; b; c].
Proof.
  destruct parts as [|u1 [|u2 [|a' [|b' [|c' [|]]]]]]; try discriminate.
  intros [= -> -> ->]. by exists u1, u2.
Qed.

Lemma meta_comments_Table_read (f : SpectralFile pyfloat) (t : Table pyfloat) (cs : list string) :
  Table_read f = Ok t -> meta_comments t = Ok cs ->
  exists s, sf_read f = Ok s /\ comments s = Some cs /\
    t = {| columns := [("wavelength", (fun r => CFloat r.1) <$> data s);
                       ("flux", (fun r => CFloat r.2) <$> data s)];
           meta := {["comments" := MList cs]} |}.
Proof.
  unfold Table_read. intros (s & Hs & [= <-])%bind_Ok.
  unfold meta_comments. cbn [meta]. destruct (comments s) as [c|] eqn:Hc.
  - rewrite lookup_singleton_eq. intros [= ->]. by exists s.
  - rewrite lookup_empty. discriminate.
Qed.

Lemma read_file_inv (f : SpectralFile pyfloat) (v : FileVars pyfloat) :
  read_file float f = Ok v ->
  exists s cs c1 c2 c3 c4 u1 u2,
    sf_read f = Ok s /\ comments s = Some cs /\
    cs !! 1 = Some c1 /\ float (Str.lstrip "Redshift: " c1) = Some (redshift v) /\
    cs !! 2 = Some c2 /\ float (Str.lstrip "JDate_of_max: " c2) = Some (max_date v) /\
    cs !! 3 = Some c3 /\ float (Str.lstrip "JDate_of_observation: " c3) = Some (obs_date v) /\
    cs !! 4 = Some c4 /\ float (Str.lstrip "Epoch: " c4) = Some (epoch v) /\
    Str.split "_" (Str.stem (sf_name f)) = [u1; u2; wrange v; telescope v; instrument v] /\
    spectral_data v =
      {| columns :=
           [("wavelength", (fun r => CFloat r.1) <$> data s);
            ("flux", (fun r => CFloat r.2) <$> data s);
            ("date", replicate (length (data s)) (CFloat (obs_date v)));
            ("epoch", replicate (length (data s)) (CFloat (epoch v)));
            ("wavelength_range", replicate (length (data s)) (CStr (wrange v)));
            ("telescope", replicate (length (data s)) (CStr (telescope v)));
            ("instrument", replicate (length (data s)) (CStr (instrument v)))];
         meta := {["comments" := MList cs]} |}.
Proof.
  unfold read_file.
  intros (t & Ht & H)%bind_Ok.
  apply bind_Ok in H as (cs & Hcs & H).
  destruct (meta_comments_Table_read _ _ _ Ht Hcs) as (s & Hs & Hc & ->).
  unfold getitem, to_float in H.
  apply bind_Ok in H as (c1 & Hc1%or_raise_Ok & H).
  apply bind_Ok in H as (z & Hz%or_raise_Ok & H).
  apply bind_Ok in H as (c2 & Hc2%or_raise_Ok & H).
  apply bind_Ok in H as (dm & Hdm%or_raise_Ok & H).
  apply bind_Ok in H as (c3 & Hc3%or_raise_Ok & H).
  apply bind_Ok in H as (dobs & Hdobs%or_raise_Ok & H).
  apply bind_Ok in H as (c4 & Hc4%or_raise_Ok & H).
  apply bind_Ok in H as (ep & Hep%or_raise_Ok & H).
  apply bind_Ok in H as ([[wr tel] inst] & (u1 & u2 & Hsplit)%unpack5_Ok & H).
  injection H as <-. cbn [redshift max_date obs_date epoch wrange telescope instrument spectral_data].
  exists s, cs, c1, c2, c3, c4, u1, u2.
  repeat split; try assumption.
  unfold add_columns, full_column, len. cbn [columns meta]. by rewrite length_fmap.
Qed.


Lemma read_file_regular (f : SpectralFile pyfloat) (v : FileVars pyfloat) :
  read_file float f = Ok v ->
  regular (spectral_data v) /\ len (spectral_data v) = file_rows f.
Proof.
  intros (s & cs & c1 & c2 & c3 & c4 & u1 & u2 & Hs & _ & _ & _ & _ & _ & _ & _ & _ & _ & _ & ->)%read_file_inv.
  unfold file_rows. rewrite Hs. split; [split|].
  - reflexivity.
  - intros n Hn. each_out_name Hn;
      cbv [col_or_masked get_col len columns List.find fst snd String.eqb Ascii.eqb Bool.eqb fmap option_fmap option_map];
      by rewrite ?length_fmap, ?length_replicate.
  - unfold len. cbn [columns]. by rewrite length_fmap.
Qed.

Lemma stacked_snoc (n : string) (ts : list (Table pyfloat)) (t : Table pyfloat) :
  stacked n (ts ++ [t]) = stacked n ts ++ col_or_masked n t.
Proof. unfold stacked. rewrite fmap_app, concat_app. simpl. by rewrite app_nil_r. Qed.

Lemma vstack_stack_all (out t : Table pyfloat) (ts : list (Table pyfloat)) :
  columns out = stack_all ts -> colnames t = file_names ->
  columns (vstack out t) = stack_all (ts ++ [t]).
Proof.
  intros Hout Ht. unfold vstack. cbn [columns].
  assert (colnames out = out_names) as -> by (unfold colnames; by rewrite Hout).
  rewrite Ht.
  change (out_names ++ List.filter _ file_names) with out_names.
  unfold stack_all, out_names. cbn [fmap list_fmap].
  rewrite !stacked_snoc.
  unfold col_or_masked at 1 3 5 7 9 11 13. unfold get_col. rewrite Hout.
  reflexivity.
Qed.

Lemma for_files_total (fs : list (SpectralFile pyfloat)) (vs : list (FileVars pyfloat))
    (out : Table pyfloat) (b : option (pyfloat * pyfloat)) :
  Forall2 (fun f v => read_file float f = Ok v) fs vs ->
  for_files float fs out b = Ok (stack_files out vs, last_bound b vs).
Proof.
  intros H. revert out b. induction H as [|f v fs vs Hf _ IH]; intros out b.
  - reflexivity.
  - cbn [for_files]. rewrite Hf. cbn [mbind result_bind]. rewrite IH.
    do 2 f_equal. unfold last_bound. rewrite last_cons. by destruct (last vs).
Qed.

Lemma for_files_inv (fs : list (SpectralFile pyfloat)) (out : Table pyfloat)
    (b : option (pyfloat * pyfloat)) (r : Table pyfloat * option (pyfloat * pyfloat)) :
  for_files float fs out b = Ok r ->
  exists vs, Forall2 (fun f v => read_file float f = Ok v) fs vs.
Proof.
  revert out b. induction fs as [|f fs IH]; intros out b H.
  - exists []. constructor.
  - cbn [for_files] in H. apply bind_Ok in H as (v & Hv & H).
    destruct (IH _ _ H) as (vs & Hvs). exists (v :: vs). by constructor.
Qed.

Lemma parses_Forall2 (fs : list (SpectralFile pyfloat)) :
  Forall (parses float) fs ->
  exists vs, Forall2 (fun f v => read_file float f = Ok v) fs vs.
Proof.
  induction 1 as [|f fs [v Hv] _ (vs & Hvs)].
  - exists []. constructor.
  - exists (v :: vs). by constructor.
Qed.

Lemma columns_stack_files (out : Table pyfloat) (ts : list (Table pyfloat))
    (vs : list (FileVars pyfloat)) :
  columns out = stack_all ts ->
  Forall (fun v => regular (spectral_data v)) vs ->
  columns (stack_files out vs) = stack_all (ts ++ (spectral_data <$> vs)).
Proof.
  intros Hout Hvs. revert out ts Hout.
  induction Hvs as [|v vs [Hv _] _ IH]; intros out ts Hout.
  - by rewrite app_nil_r.
  - change (stack_files out (v :: vs))
      with (stack_files (vstack out (spectral_data v)) vs).
    rewrite fmap_cons, (IH _ (ts ++ [spectral_data v])).
    + by rewrite <- app_assoc.
    + by apply vstack_stack_all.
Qed.

Lemma read_all_regular (fs : list (SpectralFile pyfloat)) (vs : list (FileVars pyfloat)) :
  Forall2 (fun f v => read_file float f = Ok v) fs vs ->
  Forall (fun v => regular (spectral_data v)) vs.
Proof.
  induction 1 as [|f v fs vs Hf _ IH]; constructor; [|done].
  by destruct (read_file_regular _ _ Hf).
Qed.

Lemma len_stack_all (ts : list (Table pyfloat)) (t : Table pyfloat) :
  columns t = stack_all ts -> Forall regular ts ->
  len t = sum_list (len <$> ts).
Proof.
  intros Ht Hts. unfold len. rewrite Ht. cbn [stack_all out_names fmap list_fmap].
  clear Ht. unfold stacked. induction Hts as [|t' ts' [_ Hr] _ IH]; [reflexivity|].
  cbn [fmap list_fmap concat sum_list sum_list_with]. rewrite length_app, IH.
  f_equal. apply Hr. unfold out_names. apply elem_of_cons; by left.
Qed.

Lemma len_read_all (fs : list (SpectralFile pyfloat)) (vs : list (FileVars pyfloat)) :
  Forall2 (fun f v => read_file float f = Ok v) fs vs ->
  sum_list (len <$> (spectral_data <$> vs)) = sum_list (file_rows <$> fs).
Proof.
  induction 1 as [|f v fs vs Hf _ IH]; [reflexivity|].
  cbn [fmap list_fmap sum_list sum_list_with]. rewrite IH.
  by destruct (read_file_regular _ _ Hf) as [_ ->].
Qed.

(** What [get_data_for_id] does once the files it iterates over are known
    to parse. *)
Lemma get_data_for_id_total (st : Store pyfloat) (obj_id : string)
    (fs : list (SpectralFile pyfloat)) (vs : list (FileVars pyfloat)) :
  data_is_available st = true ->
  rglob sf_name (spectra_dir st) (spectra_pattern obj_id) = Ok fs ->
  Forall2 (fun f v => read_file float f = Ok v) fs vs ->
  get_data_for_id float st obj_id =
  match last vs with
  | None => Raise (UnboundLocalError "redshift")
  | Some v =>
      Ok (set_meta "obj_id" (MStr obj_id)
           (set_meta "JDate_of_max" (MFloat (max_date v))
             (set_meta "redshift" (MFloat (redshift v))
               (stack_files empty_out_table vs))))
  end.
Proof.
  intros Hav Hfs Hvs. unfold get_data_for_id, _raise_for_data.
  rewrite Hav. cbn [mbind result_bind bool_of_generator negb]. rewrite Hfs.
  cbn [mbind result_bind]. rewrite (for_files_total _ _ _ _ Hvs).
  unfold last_bound. by destruct (last vs).
Qed.

(** C7.  When the files matching an object id all parse, [get_data_for_id]
    returns a table whose metadata holds the redshift and the date of maximum
    read from the file processed last, whatever the earlier files said, and
    the requested object id. *)
Theorem metadata_last_file_wins (st : Store pyfloat) (obj_id : string)
    (fs : list (SpectralFile pyfloat)) (f_last : SpectralFile pyfloat)
    (v_last : FileVars pyfloat) :
  data_is_available st = true ->
  rglob sf_name (spectra_dir st) (spectra_pattern obj_id) = Ok (fs ++ [f_last]) ->
  Forall (parses float) fs ->
  read_file float f_last = Ok v_last ->
  exists t,
    get_data_for_id float st obj_id = Ok t /\
    meta t !! "redshift" = Some (MFloat (redshift v_last)) /\
    meta t !! "JDate_of_max" = Some (MFloat (max_date v_last)) /\
    meta t !! "obj_id" = Some (MStr obj_id).
Proof.
  intros Hav Hfs (vs & Hvs)%parses_Forall2 Hlast.
  assert (Forall2 (fun f v => read_file float f = Ok v) (fs ++ [f_last]) (vs ++ [v_last]))
    as Hall by (apply Forall2_app; [done | by constructor]).
  rewrite (get_data_for_id_total _ _ _ _ Hav Hfs Hall), last_snoc.
  eexists. split; [reflexivity|]. cbn [set_meta meta].
  repeat split.
  - by rewrite lookup_insert_ne, lookup_insert_ne, lookup_insert_eq.
  - by rewrite lookup_insert_ne, lookup_insert_eq.
  - by rewrite lookup_insert_eq.
Qed.

(** C8.  When the files matching an object id all parse, and there is at
    least one, [get_data_for_id] returns a table with as many rows as the
    matching files have together. *)
Theorem row_count_is_sum (st : Store pyfloat) (obj_id : string)
    (fs : list (SpectralFile pyfloat)) :
  data_is_available st = true ->
  rglob sf_name (spectra_dir st) (spectra_pattern obj_id) = Ok fs ->
  fs <> [] ->
  Forall (parses float) fs ->
  exists t,
    get_data_for_id float st obj_id = Ok t /\
    len t = sum_list (file_rows <$> fs).
Proof.
  intros Hav Hfs Hne (vs & Hvs)%parses_Forall2.
  rewrite (get_data_for_id_total _ _ _ _ Hav Hfs Hvs).
  destruct (last vs) as [v|] eqn:Hlast.
  - eexists. split; [reflexivity|].
    rewrite <- (len_read_all _ _ Hvs).
    apply len_stack_all.
    + cbn [set_meta columns].
      by apply (columns_stack_files empty_out_table []), (read_all_regular fs).
    + apply Forall_fmap, (read_all_regular fs vs Hvs).
  - apply last_None in Hlast as ->. by inversion Hvs.
Qed.

(** C5, amended.  For every spectral file that parses, the per-file table
    is the two data columns followed by five broadcast columns: the
    observation date (as [date]) and the epoch from the header, and all three
    file-name codes, wavelength range included.  The redshift and the date of
    maximum get no column. *)
Theorem broadcast_columns (f : SpectralFile pyfloat) (v : FileVars pyfloat) :
  read_file float f = Ok v ->
  exists s cs c3 c4 u1 u2,
    sf_read f = Ok s /\ comments s = Some cs /\
    cs !! 3 = Some c3 /\ float (Str.lstrip "JDate_of_observation: " c3) = Some (obs_date v) /\
    cs !! 4 = Some c4 /\ float (Str.lstrip "Epoch: " c4) = Some (epoch v) /\
    Str.split "_" (Str.stem (sf_name f)) = [u1; u2; wrange v; telescope v; instrument v] /\
    columns (spectral_data v) =
      [("wavelength", (fun r => CFloat r.1) <$> data s);
       ("flux", (fun r => CFloat r.2) <$> data s);
       ("date", replicate (length (data s)) (CFloat (obs_date v)));
       ("epoch", replicate (length (data s)) (CFloat (epoch v)));
       ("wavelength_range", replicate (length (data s)) (CStr (wrange v)));
       ("telescope", replicate (length (data s)) (CStr (telescope v)));
       ("instrument", replicate (length (data s)) (CStr (instrument v)))].
Proof.
  intros (s & cs & c1 & c2 & c3 & c4 & u1 & u2 & Hs & Hcs & _ & _ & _ & _ &
          Hc3 & Hobs & Hc4 & Hep & Hsplit & ->)%read_file_inv.
  by exists s, cs, c3, c4, u1, u2.
Qed.

(** With no matching file the loop body never runs, and the function ends
    on the unbound local [redshift]. *)
Lemma no_match_unbound (st : Store pyfloat) (obj_id : string) :
  data_is_available st = true ->
  rglob sf_name (spectra_dir st) (spectra_pattern obj_id) = Ok [] ->
  get_data_for_id float st obj_id = Raise (UnboundLocalError "redshift").
Proof.
  intros Hav Hfs.
  rewrite (get_data_for_id_total st obj_id [] []); [reflexivity | done | done | constructor].
Qed.

(** A missing table file is reported by the reader. *)
Lemma load_table_missing (st : Store pyfloat) (table_num : Z) :
  data_is_available st = true ->
  path_exists (table_dir st) ("table" +:+ pretty table_num +:+ ".dat") = false ->
  load_table st table_num =
  Raise (FileNotFoundError ("table" +:+ pretty table_num +:+ ".dat")).
Proof.
  intros Hav Hex. unfold load_table, _raise_for_data. rewrite Hav.
  cbn [mbind result_bind bool_of_method negb]. unfold ascii_read, path_exists in *.
  destruct (List.find _ _) as [f|] eqn:Hfind; [|reflexivity].
  apply find_some in Hfind as [Hin Hf].
  assert (existsb (fun f => negb (tf_subdir f) && String.eqb (tf_name f)
            ("table" +:+ pretty table_num +:+ ".dat")) (table_dir st) = true) as Hex'
    by (apply existsb_exists; eauto).
  congruence.
Qed.

Lemma table_nums_of_error (int : string -> option Z) (files : list (TableFile pyfloat)) (e : exn) :
  table_nums_of int files = Raise e -> exists msg, e = ValueError msg.
Proof.
  induction files as [|f files IH]; [discriminate|].
  cbn [table_nums_of]. unfold to_int.
  destruct (int _) as [n|]; cbn [or_raise mbind result_bind].
  - destruct (table_nums_of int files) as [ns|e']; [discriminate|].
    intros [= <-]. by apply IH.
  - intros [= <-]. eauto.
Qed.

(** [get_available_tables] has no availability check to fail. *)
Lemma get_available_tables_unchecked (int : string -> option Z) (st : Store pyfloat) :
  get_available_tables int st <> Raise DataUnavailable.
Proof.
  unfold get_available_tables, rglob.
  change (Str.has_double_star "table*.dat") with false.
  cbn [mbind result_bind]. intros (msg & [=])%table_nums_of_error.
Qed.

(** ** The iteration driver *)

Lemma iter_ids_nonempty (st : Store pyfloat) (ids : list string) :
  Forall (fun t => 0 < len t) (iter_ids float st ids).1.
Proof.
  induction ids as [|id_val ids IH]; [constructor|].
  cbn [iter_ids]. destruct (get_data_for_id float st id_val) as [t|e]; [|constructor].
  destruct (iter_ids float st ids) as [ys e]. cbn [fst] in IH.
  destruct (bool_of_table t) eqn:Ht; cbn [fst]; [|done].
  constructor; [|done]. by apply Nat.ltb_lt.
Qed.

(** C9.  Whatever the store holds and whatever keyword arguments the call
    passes, a filter among them or not, no table [iter_data] yields has zero
    rows. *)
Theorem iter_data_skips_empty (kwargs : list (string * pyarg pyfloat)) (st : Store pyfloat) :
  Forall (fun t => 0 < len t) (call_iter_data float kwargs st).1.
Proof.
  unfold call_iter_data.
  destruct (List.find _ kwargs) as [[k a]|]; [constructor|].
  unfold iter_data. destruct (get_available_ids st) as [ids|e]; [|constructor].
  apply iter_ids_nonempty.
Qed.

(** The signature of [iter_data] has no filter: a call that passes one is
    refused before the generator runs. *)
Lemma iter_data_rejects_filter (P : Table pyfloat -> bool) (st : Store pyfloat) :
  call_iter_data float [("filter_func", AFunc P)] st =
  ([], Some (TypeError "iter_data() got an unexpected keyword argument 'filter_func'")).
Proof. reflexivity. Qed.


(** ** From the enumerator to the aggregator and back *)

Lemma id_of_name_SN (suffix rest : string) :
  Str.mem "_" suffix = false ->
  Str.starts_outside "SN" suffix = true ->
  id_of_name ("SN" +:+ suffix +:+ "_" +:+ rest) = "20" +:+ suffix.
Proof.
  intros Hu Hsn. unfold id_of_name.
  change ("SN" +:+ suffix +:+ "_" +:+ rest)
    with (String "S" (String "N" suffix) +:+ String "_" rest).
  rewrite split_first by (change (Str.mem "_" suffix = false); exact Hu).
  cbn [head default from_option id].
  change (Str.lstrip "SN" (String "S" (String "N" suffix))) with (Str.lstrip "SN" suffix).
  by rewrite lstrip_outside.
Qed.

Lemma spectra_pattern_20 (suffix : string) :
  spectra_pattern ("20" +:+ suffix) = "SN" +:+ suffix +:+ "_*.dat".
Proof. reflexivity. Qed.

Lemma pattern_no_double_star (suffix : string) :
  Str.has_double_star suffix = false ->
  Str.has_double_star ("SN" +:+ suffix +:+ "_*.dat") = false.
Proof.
  intros Hs.
  change ("SN" +:+ suffix +:+ "_*.dat") with (String "S" (String "N" suffix) +:+ "_*.dat").
  rewrite has_double_star_app by reflexivity.
  change (Str.has_double_star "_*.dat") with false. rewrite orb_false_r.
  destruct suffix as [|c suffix]; [reflexivity|].
  cbn [Str.has_double_star] in *.
  change (Ascii.eqb "S" "*") with false. change (Ascii.eqb "N" "*") with false.
  exact Hs.
Qed.

Lemma rglob_member {A} (name : A -> string) (dir : list A) (pattern : string) (f : A) :
  Str.has_double_star pattern = false ->
  f ∈ dir -> Fnmatch.fnmatch (name f) pattern = true ->
  exists fs, rglob name dir pattern = Ok fs /\ f ∈ fs.
Proof.
  intros Hp Hin Hm. unfold rglob. rewrite Hp. eexists. split; [reflexivity|].
  apply list_elem_of_In, filter_In. split; [by apply list_elem_of_In | exact Hm].
Qed.

Lemma length_stacked (n : string) (ts : list (Table pyfloat)) :
  n ∈ out_names -> Forall regular ts ->
  length (stacked n ts) = sum_list (len <$> ts).
Proof.
  intros Hn. unfold stacked. induction 1 as [|t ts [_ Hr] _ IH]; [reflexivity|].
  cbn [fmap list_fmap concat sum_list sum_list_with].
  by rewrite length_app, IH, Hr.
Qed.

Lemma stacked_lookup (n : string) (ts1 ts2 : list (Table pyfloat)) (t : Table pyfloat)
    (i : nat) (c : cell pyfloat) :
  n ∈ out_names -> Forall regular ts1 ->
  col_or_masked n t !! i = Some c ->
  stacked n (ts1 ++ t :: ts2) !! (sum_list (len <$> ts1) + i) = Some c.
Proof.
  intros Hn Hreg Hc.
  assert (stacked n (ts1 ++ t :: ts2) =
          stacked n ts1 ++ col_or_masked n t ++ stacked n ts2) as ->
    by (unfold stacked; by rewrite fmap_app, concat_app).
  rewrite <- (length_stacked n ts1 Hn Hreg).
  rewrite lookup_app_r by lia.
  replace (length (stacked n ts1) + i - length (stacked n ts1)) with i by lia.
  by apply lookup_app_l_Some.
Qed.

(** The rows of every file the aggregator iterates over are in the table
    it returns. *)
Lemma get_data_for_id_rows (st : Store pyfloat) (obj_id : string)
    (fs : list (SpectralFile pyfloat)) (f : SpectralFile pyfloat) (t : Table pyfloat) :
  rglob sf_name (spectra_dir st) (spectra_pattern obj_id) = Ok fs ->
  f ∈ fs ->
  get_data_for_id float st obj_id = Ok t ->
  exists s wl fl k,
    sf_read f = Ok s /\ get_col "wavelength" t = Some wl /\
    get_col "flux" t = Some fl /\ rows_at s wl fl k.
Proof.
  intros Hfs Hin Ht.
  assert (data_is_available st = true) as Hav.
  { unfold get_data_for_id, _raise_for_data in Ht.
    by destruct (data_is_available st). }
  assert (exists vs, Forall2 (fun f v => read_file float f = Ok v) fs vs) as [vs Hvs].
  { unfold get_data_for_id, _raise_for_data in Ht. rewrite Hav, Hfs in Ht.
    cbn [mbind result_bind bool_of_generator negb] in Ht.
    destruct (for_files float fs empty_out_table None) as [r|] eqn:Hr; [|discriminate].
    by apply for_files_inv in Hr. }
  rewrite (get_data_for_id_total _ _ _ _ Hav Hfs Hvs) in Ht.
  destruct (last vs) as [v_last|]; [|discriminate]. injection Ht as <-.
  apply list_elem_of_split in Hin as (fs1 & fs2 & ->).
  apply Forall2_app_inv_l in Hvs as (vs1 & vs' & Hvs1 & Hvs' & ->).
  apply Forall2_cons_inv_l in Hvs' as (v & vs2 & Hv & Hvs2 & ->).
  assert (columns (stack_files empty_out_table (vs1 ++ v :: vs2)) =
          stack_all ((spectral_data <$> vs1) ++ spectral_data v :: (spectral_data <$> vs2)))
    as Hcols.
  { rewrite (columns_stack_files _ []); [by rewrite fmap_app | reflexivity |].
    apply Forall_app. split; [by apply (read_all_regular fs1)|].
    constructor; [by destruct (read_file_regular _ _ Hv) | by apply (read_all_regular fs2)]. }
  assert (Forall regular (spectral_data <$> vs1)) as Hreg1
    by apply Forall_fmap, (read_all_regular fs1 vs1 Hvs1).
  destruct (read_file_inv _ _ Hv)
    as (s & cs & c1 & c2 & c3 & c4 & u1 & u2 & Hs & _ & _ & _ & _ & _ & _ & _ & _ & _ & _ & Hsd).
  exists s, (stacked "wavelength" ((spectral_data <$> vs1) ++ spectral_data v :: (spectral_data <$> vs2))),
    (stacked "flux" ((spectral_data <$> vs1) ++ spectral_data v :: (spectral_data <$> vs2))),
    (sum_list (len <$> (spectral_data <$> vs1))).
  split; [exact Hs|]. unfold get_col. cbn [set_meta columns]. rewrite Hcols.
  split; [reflexivity|]. split; [reflexivity|].
  intros i r Hr. split.
  - apply stacked_lookup; [unfold out_names; set_solver | exact Hreg1 |].
    rewrite Hsd.
    change (col_or_masked "wavelength" _) with ((fun r => @CFloat pyfloat r.1) <$> data s).
    by rewrite list_lookup_fmap, Hr.
  - apply stacked_lookup; [unfold out_names; set_solver | exact Hreg1 |].
    rewrite Hsd.
    change (col_or_masked "flux" _) with ((fun r => @CFloat pyfloat r.2) <$> data s).
    by rewrite list_lookup_fmap, Hr.
Qed.

Lemma get_available_ids_member (st : Store pyfloat) (f : SpectralFile pyfloat) :
  data_is_available st = true ->
  f ∈ spectra_dir st -> sf_subdir f = false ->
  Fnmatch.fnmatch (sf_name f) "SN*.dat" = true ->
  exists ids, get_available_ids st = Ok ids /\ id_of_name (sf_name f) ∈ ids.
Proof.
  intros Hav Hin Hsub Hm. unfold get_available_ids, _raise_for_data. rewrite Hav.
  cbn [mbind result_bind]. eexists. split; [reflexivity|].
  apply elem_of_elements, elem_of_list_to_set, list_elem_of_fmap.
  exists f. split; [reflexivity|]. unfold glob.
  apply list_elem_of_In, filter_In. split; [by apply list_elem_of_In|].
  by rewrite Hsub, Hm.
Qed.

(** C10, amended.  Take a spectral file [SN<suffix>_<rest>.dat], where
    [<suffix>] is the text up to the first underscore, does not begin with
    [S] or [N], and contains neither a bracket nor two stars in a row.  The
    id the enumerator derives from the name is ["20"] followed by the suffix;
    the pattern the aggregator builds from that id matches the name; and in
    a fetched store that holds the file, the enumerator lists the id (for a
    file directly in the directory), the aggregator iterates over the file,
    returns a table when the files it iterates over all parse, and the table
    it returns contains the rows of the file. *)
Theorem round_trip (suffix rest : string) :
  Str.mem "_" suffix = false ->
  Str.starts_outside "SN" suffix = true ->
  Str.mem "[" suffix = false ->
  Str.has_double_star suffix = false ->
  let name := "SN" +:+ suffix +:+ "_" +:+ rest +:+ ".dat" in
  spec_round_trip suffix rest /\
  forall (st : Store pyfloat) (f : SpectralFile pyfloat),
    data_is_available st = true -> f ∈ spectra_dir st -> sf_name f = name ->
    (exists ids, get_available_ids st = Ok ids /\
                 (sf_subdir f = false -> id_of_name name ∈ ids)) /\
    (exists fs, rglob sf_name (spectra_dir st) (spectra_pattern (id_of_name name)) = Ok fs /\
                f ∈ fs /\
                (Forall (parses float) fs ->
                 exists t, get_data_for_id float st (id_of_name name) = Ok t)) /\
    (forall t, get_data_for_id float st (id_of_name name) = Ok t ->
       exists s wl fl k,
         sf_read f = Ok s /\ get_col "wavelength" t = Some wl /\
         get_col "flux" t = Some fl /\ rows_at s wl fl k).
Proof.
  intros Hu Hsn Hbr Hstar name.
  assert (id_of_name name = "20" +:+ suffix) as Hid by by apply id_of_name_SN.
  assert (Fnmatch.fnmatch name (spectra_pattern (id_of_name name)) = true) as Hmatch.
  { rewrite Hid, spectra_pattern_20. by apply fnmatch_own_prefix. }
  split; [by split|].
  intros st f Hav Hin Hname.
  assert (exists fs, rglob sf_name (spectra_dir st) (spectra_pattern (id_of_name name)) = Ok fs /\
                     f ∈ fs) as (fs & Hfs & Hffs).
  { apply rglob_member; [|done|by rewrite Hname].
    rewrite Hid, spectra_pattern_20. by apply pattern_no_double_star. }
  split; [|split].
  - destruct (Bool.bool_dec (sf_subdir f) false) as [Hsub|Hsub].
    + rewrite <- Hname. apply get_available_ids_member in Hin as (ids & Hids & Hmem); eauto.
      rewrite Hname. apply fnmatch_SN_dat.
    + unfold get_available_ids, _raise_for_data. rewrite Hav.
      eexists. split; [reflexivity|]. intros. contradiction.
  - exists fs. split; [exact Hfs|]. split; [exact Hffs|].
    intros (vs & Hvs)%parses_Forall2.
    rewrite (get_data_for_id_total _ _ _ _ Hav Hfs Hvs).
    destruct (last vs) as [v|] eqn:Hlast; [by eexists|].
    apply last_None in Hlast as ->. apply Forall2_nil_inv_r in Hvs as ->.
    by apply elem_of_nil in Hffs.
  - intros t Ht. by apply (get_data_for_id_rows st (id_of_name name) fs).
Qed.


(** ** The scenario *)

(** One turn of the loop on a file with the header of the scenario. *)
Lemma read_scenario_file (z dm dobs ep : pyfloat) (name first u1 u2 wr tel inst : string)
    (rows : list (pyfloat * pyfloat)) :
  float "0.01" = Some z -> float "2451200.0" = Some dm ->
  float "2451210.5" = Some dobs -> float "10.5" = Some ep ->
  Str.split "_" (Str.stem name) = [u1; u2; wr; tel; inst] ->
  read_file float (scenario_file name first rows) =
  Ok {| spectral_data :=
          {| columns :=
               [("wavelength", (fun r => CFloat r.1) <$> rows);
                ("flux", (fun r => CFloat r.2) <$> rows);
                ("date", replicate (length rows) (CFloat dobs));
                ("epoch", replicate (length rows) (CFloat ep));
                ("wavelength_range", replicate (length rows) (CStr wr));
                ("telescope", replicate (length rows) (CStr tel));
                ("instrument", replicate (length rows) (CStr inst))];
             meta := {["comments" := MList (scenario_header first)]} |};
        redshift := z; max_date := dm; obs_date := dobs; epoch := ep;
        wrange := wr; telescope := tel; instrument := inst |}.
Proof.
  intros Hz Hdm Hdobs Hep Hsplit.
  unfold read_file, Table_read, scenario_file.
  cbn [sf_read sf_name mbind result_bind comments data].
  unfold meta_comments. cbn [meta]. rewrite lookup_singleton_eq.
  cbn [mbind result_bind]. unfold getitem, to_float, scenario_header.
  cbn [lookup list_lookup or_raise mbind result_bind].
  change (Str.lstrip "Redshift: " "Redshift: 0.01") with "0.01".
  change (Str.lstrip "JDate_of_max: " "JDate_of_max: 2451200.0") with "2451200.0".
  change (Str.lstrip "JDate_of_observation: " "JDate_of_observation: 2451210.5")
    with "2451210.5".
  change (Str.lstrip "Epoch: " "Epoch: 10.5") with "10.5".
  rewrite Hz, Hdm, Hdobs, Hep, Hsplit.
  cbn [or_raise mbind result_bind unpack5].
  unfold add_columns, full_column, len. cbn [columns meta app].
  by rewrite length_fmap.
Qed.

(** C6, amended.  Given the two files of the scenario, each with the four
    header lines after a first comment line and three data rows, in either
    directory order, [get_data_for_id] called with ["201999aa"], the id the
    enumerator derives from the file names, returns a table of six rows whose
    metadata has that object id and the redshift 0.01, and whose
    wavelength-range column holds the two values [opt] and [ir]. *)
Theorem scenario_201999aa (z dm dobs ep : pyfloat) (first1 first2 : string)
    (r1 r2 r3 r4 r5 r6 : pyfloat * pyfloat) (st : Store pyfloat) :
  float "0.01" = Some z -> float "2451200.0" = Some dm ->
  float "2451210.5" = Some dobs -> float "10.5" = Some ep ->
  data_is_available st = true ->
  (let opt := scenario_file "SN1999aa_ref_opt_tel1_inst1.dat" first1 [r1; r2; r3] in
   let ir := scenario_file "SN1999aa_ref_ir_tel2_inst2.dat" first2 [r4; r5; r6] in
   spectra_dir st = [opt; ir] \/ spectra_dir st = [ir; opt]) ->
  spec_scenario "201999aa" z (get_data_for_id float st "201999aa").
Proof.
  intros Hz Hdm Hdobs Hep Hav Hdir.
  pose proof (read_scenario_file z dm dobs ep "SN1999aa_ref_opt_tel1_inst1.dat" first1
                "SN1999aa" "ref" "opt" "tel1" "inst1" [r1; r2; r3]
                Hz Hdm Hdobs Hep eq_refl) as Hopt.
  pose proof (read_scenario_file z dm dobs ep "SN1999aa_ref_ir_tel2_inst2.dat" first2
                "SN1999aa" "ref" "ir" "tel2" "inst2" [r4; r5; r6]
                Hz Hdm Hdobs Hep eq_refl) as Hir.
  unfold spec_scenario.
  destruct Hdir as [Hdir|Hdir].
  - erewrite get_data_for_id_total;
      [ | exact Hav
        | unfold rglob; rewrite Hdir; reflexivity
        | constructor; [exact Hopt | constructor; [exact Hir | constructor]] ].
    eexists _, (replicate 3 (CStr "opt") ++ replicate 3 (CStr "ir")).
    split; [reflexivity|]. split; [reflexivity|].
    split; [reflexivity|]. split; [reflexivity|]. split; [reflexivity|].
    intros c. cbn [replicate app]. rewrite !elem_of_cons, elem_of_nil. tauto.
  - erewrite get_data_for_id_total;
      [ | exact Hav
        | unfold rglob; rewrite Hdir; reflexivity
        | constructor; [exact Hir | constructor; [exact Hopt | constructor]] ].
    eexists _, (replicate 3 (CStr "ir") ++ replicate 3 (CStr "opt")).
    split; [reflexivity|]. split; [reflexivity|].
    split; [reflexivity|]. split; [reflexivity|]. split; [reflexivity|].
    intros c. cbn [replicate app]. rewrite !elem_of_cons, elem_of_nil. tauto.
Qed.

End Aggregation.

(* ===================================================================== *)
(** * The functions on concrete stores *)
(* ===================================================================== *)

Example read_one_row_file : read_file Numerals.float one_row_file = Ok one_row_vars.
Proof. evaluate. Qed.

Example read_late_file : read_file Numerals.float late_file = Ok late_vars.
Proof. evaluate. Qed.

Example fetched_store_listing :
  get_available_ids fetched_store = Ok ["2005hc"; "2006ab"] /\
  get_available_tables Numerals.int fetched_store = Ok [1%Z; 2%Z] /\
  load_table fetched_store 1 = Ok small_table.
Proof. evaluate. Qed.

(** An object whose only file has no data rows is loaded and then skipped. *)
Example empty_object_skipped :
  exists t0 t,
    get_data_for_id Numerals.float fetched_store "2006ab" = Ok t0 /\ len t0 = 0 /\
    iter_data Numerals.float false fetched_store = ([t], None) /\
    meta t !! "obj_id" = Some (MStr "2005hc").
Proof. do 2 eexists. evaluate. Qed.

(** ** [get_data_for_id] without a matching file (C1) *)

(** C1.  In a fetched store where no file matches [SN50zz_*.dat], the call
    [get_data_for_id("2050zz")] does not raise the [ValueError] written for
    that case: the test [if not files] looks at a generator, which is always
    true, the loop runs zero times, and the function ends on the unbound
    local [redshift]. *)
Theorem no_data_raises_unbound_local :
  rglob sf_name (spectra_dir fetched_store) (spectra_pattern "2050zz") = Ok [] /\
  get_data_for_id Numerals.float fetched_store "2050zz" =
    Raise (UnboundLocalError "redshift") /\
  get_data_for_id Numerals.float fetched_store "2050zz" <>
    Raise (ObjectNotFound "2050zz").
Proof. conjuncts; [evaluate | evaluate | discriminate]. Qed.

(** ** [iter_data] and filters (C2) *)

(** C2.  [iter_data] takes no filter.  The call the repository's filtering
    test makes, [iter_data(filter_func=...)], ends in a [TypeError]; called
    without it, [iter_data] yields the table of object [2005hc] although the
    test's predicate, selecting [2006ab] only, is false on it. *)
Theorem iter_data_has_no_filter :
  call_iter_data Numerals.float [("filter_func", AFunc (filter_func ["2006ab"]))]
    fetched_store =
    ([], Some (TypeError "iter_data() got an unexpected keyword argument 'filter_func'")) /\
  exists t,
    iter_data Numerals.float false fetched_store = ([t], None) /\
    filter_func ["2006ab"] t = false.
Proof. split; [evaluate|]. eexists. split; evaluate. Qed.

(** ** [load_table] on a missing table (C3) *)

(** C3.  In a fetched store without [table99.dat], [load_table(99)] does not
    raise the [ValueError] written for that case: [table_path.exists] is
    tested without being called, so the reader is run on the missing file. *)
Theorem missing_table_reaches_reader :
  path_exists (table_dir fetched_store) "table99.dat" = false /\
  load_table fetched_store 99 = Raise (FileNotFoundError "table99.dat") /\
  load_table fetched_store 99 <> Raise (TableNotFound 99).
Proof. conjuncts; [evaluate | evaluate | discriminate]. Qed.

(** ** [get_available_tables] without data (C4) *)

(** C4.  On a store that has not been fetched, [get_available_ids] fails with
    [DataUnavailable], while [get_available_tables], which does not call
    [_raise_for_data], scans the missing directory and returns the empty
    list. *)
Theorem tables_listed_without_check :
  get_available_ids unfetched_store = Raise DataUnavailable /\
  get_available_tables Numerals.int unfetched_store = Ok [].
Proof. split; evaluate. Qed.

(** ** The broadcast columns (C5) *)

(** C5 as the specification words it fails on a file with one row: no column
    of the per-file table holds the redshift or the date of maximum, and the
    wavelength-range code does fill a column. *)
Lemma spec_broadcast_fails :
  read_file Numerals.float one_row_file = Ok one_row_vars /\
  ~ broadcast (CFloat (redshift one_row_vars)) (spectral_data one_row_vars) /\
  ~ broadcast (CFloat (max_date one_row_vars)) (spectral_data one_row_vars) /\
  broadcast (CStr (wrange one_row_vars)) (spectral_data one_row_vars) /\
  ~ spec_broadcast one_row_vars.
Proof.
  assert (forall v : cell Q,
            broadcast v (spectral_data one_row_vars) ->
            v ∈ [CFloat (Qmake 4000 1); CFloat (Qmake 11 10); CFloat (Qmake 4902421 2);
                 CFloat (Qmake 21 2); CStr "opt"; CStr "DUP"; CStr "BC"]) as Hcols.
  { intros v [name Hname]. unfold get_col in Hname.
    destruct (List.find _ _) as [[n d]|] eqn:Hfind; [|discriminate].
    apply find_some in Hfind as [Hin _]. injection Hname as ->.
    cbn in Hin.
    repeat (destruct Hin as [[= <- <-]|Hin]; [rewrite !elem_of_cons; tauto|]).
    destruct Hin. }
  assert (broadcast (CStr (wrange one_row_vars)) (spectral_data one_row_vars)) as Hwr
    by (by exists "wavelength_range").
  split; [evaluate|]. split; [|split; [|split; [exact Hwr|]]].
  - intros H%Hcols. cbn in H. rewrite !elem_of_cons, elem_of_nil in H.
    intuition discriminate.
  - intros H%Hcols. cbn in H. rewrite !elem_of_cons, elem_of_nil in H.
    intuition discriminate.
  - intros (_ & _ & _ & _ & _ & _ & Hno). exact (Hno Hwr).
Qed.

Lemma broadcast_columns_witness :
  read_file Numerals.float one_row_file = Ok one_row_vars /\
  exists s cs c3 c4 u1 u2,
    sf_read one_row_file = Ok s /\ comments s = Some cs /\
    cs !! 3 = Some c3 /\
    Numerals.float (Str.lstrip "JDate_of_observation: " c3) = Some (obs_date one_row_vars) /\
    cs !! 4 = Some c4 /\
    Numerals.float (Str.lstrip "Epoch: " c4) = Some (epoch one_row_vars) /\
    Str.split "_" (Str.stem (sf_name one_row_file)) =
      [u1; u2; wrange one_row_vars; telescope one_row_vars; instrument one_row_vars] /\
    columns (spectral_data one_row_vars) =
      [("wavelength", (fun r => CFloat r.1) <$> data s);
       ("flux", (fun r => CFloat r.2) <$> data s);
       ("date", replicate (length (data s)) (CFloat (obs_date one_row_vars)));
       ("epoch", replicate (length (data s)) (CFloat (epoch one_row_vars)));
       ("wavelength_range", replicate (length (data s)) (CStr (wrange one_row_vars)));
       ("telescope", replicate (length (data s)) (CStr (telescope one_row_vars)));
       ("instrument", replicate (length (data s)) (CStr (instrument one_row_vars)))].
Proof.
  split; [evaluate|].
  apply (broadcast_columns Numerals.float one_row_file one_row_vars). evaluate.
Defined.

(** ** The scenario (C6) *)

(** C6 as the specification words it fails: for the id ["1999aa"] the
    aggregator looks for [SN99aa_*.dat], neither file of the scenario
    matches, and no table is returned. *)
Lemma scenario_1999aa_fails :
  spectra_pattern "1999aa" = "SN99aa_*.dat" /\
  get_data_for_id Numerals.float scenario_store "1999aa" =
    Raise (UnboundLocalError "redshift") /\
  ~ spec_scenario "1999aa" (Qmake 1 100)
      (get_data_for_id Numerals.float scenario_store "1999aa").
Proof.
  split; [evaluate|]. split; [evaluate|].
  intros (t & wr & H & _). discriminate H.
Qed.

Lemma scenario_201999aa_witness :
  get_available_ids scenario_store = Ok ["201999aa"] /\
  spec_scenario "201999aa" (Qmake 1 100)
    (get_data_for_id Numerals.float scenario_store "201999aa").
Proof.
  split; [evaluate|].
  apply (scenario_201999aa Numerals.float (Qmake 1 100) (Qmake 2451200 1)
           (Qmake 4902421 2) (Qmake 21 2) "SN1999aa optical" "SN1999aa infrared"
           (Qmake 4000 1, Qmake 11 10) (Qmake 4010 1, Qmake 12 10) (Qmake 4020 1, Qmake 13 10)
           (Qmake 9000 1, Qmake 5 10) (Qmake 9010 1, Qmake 6 10) (Qmake 9020 1, Qmake 7 10)
           scenario_store);
    [evaluate ..|].
  left. evaluate.
Defined.

(** ** Last file wins (C7) and the row count (C8) *)

Lemma metadata_last_file_wins_witness :
  redshift one_row_vars <> redshift late_vars /\
  exists t,
    get_data_for_id Numerals.float disagreeing_store "2005hc" = Ok t /\
    meta t !! "redshift" = Some (MFloat (redshift late_vars)) /\
    meta t !! "JDate_of_max" = Some (MFloat (max_date late_vars)) /\
    meta t !! "obj_id" = Some (MStr "2005hc").
Proof.
  split; [discriminate|].
  apply (metadata_last_file_wins Numerals.float disagreeing_store "2005hc"
           [one_row_file] late_file late_vars).
  - evaluate.
  - evaluate.
  - constructor; [|constructor]. exists one_row_vars. evaluate.
  - evaluate.
Defined.

Lemma row_count_is_sum_witness :
  exists t,
    get_data_for_id Numerals.float disagreeing_store "2005hc" = Ok t /\
    len t = sum_list (file_rows <$> [one_row_file; late_file]).
Proof.
  apply (row_count_is_sum Numerals.float disagreeing_store "2005hc" [one_row_file; late_file]).
  - evaluate.
  - evaluate.
  - discriminate.
  - constructor; [|constructor; [|constructor]].
    + exists one_row_vars. evaluate.
    + exists late_vars. evaluate.
Defined.

(** ** The round trip (C10) *)

(** C10 as the specification words it fails on [SN[a]_x_opt_DUP_BC.dat]: the
    suffix does not begin with [S] or [N], the enumerator derives the id
    ["20[a]"], and the pattern [SN[a]_*.dat] built from it reads [[a]] as a
    bracket expression, which the name does not match; the aggregator finds
    no file. *)
Lemma round_trip_fails_on_brackets :
  Str.starts_outside "SN" "[a]" = true /\
  ~ spec_round_trip "[a]" "x_opt_DUP_BC" /\
  get_available_ids bracket_store = Ok ["20[a]"] /\
  rglob sf_name (spectra_dir bracket_store) (spectra_pattern "20[a]") = Ok [] /\
  get_data_for_id Numerals.float bracket_store "20[a]" = Raise (UnboundLocalError "redshift").
Proof.
  split; [evaluate|]. split; [|evaluate].
  intros [_ H]. discriminate H.
Qed.

Lemma round_trip_witness :
  spec_round_trip "05hc" "b01_opt_DUP_BC" /\
  (exists fs, rglob sf_name (spectra_dir fetched_store) (spectra_pattern "2005hc") = Ok fs /\
              one_row_file ∈ fs /\
              (Forall (parses Numerals.float) fs ->
               exists t, get_data_for_id Numerals.float fetched_store "2005hc" = Ok t)) /\
  (forall t, get_data_for_id Numerals.float fetched_store "2005hc" = Ok t ->
     exists s wl fl k,
       sf_read one_row_file = Ok s /\ get_col "wavelength" t = Some wl /\
       get_col "flux" t = Some fl /\ rows_at s wl fl k).
Proof.
  destruct (round_trip Numerals.float "05hc" "b01_opt_DUP_BC"
              eq_refl eq_refl eq_refl eq_refl) as [Hrt Hst].
  split; [exact Hrt|].
  destruct (Hst fetched_store one_row_file eq_refl) as (_ & Hfs & Hrows).
  - apply elem_of_cons. left. evaluate.
  - evaluate.
  - split; [exact Hfs | exact Hrows].
Defined.

(* ===================================================================== *)
(** * Further properties of the enumerators *)
(* ===================================================================== *)

Section Enumerators.
Context {pyfloat : Type}.
Implicit Types (st : Store pyfloat).

Lemma lstrip_starts_outside (chars s : string) :
  Str.starts_outside chars (Str.lstrip chars s) = true.
Proof.
  induction s as [|c s IH]; [reflexivity|].
  cbn [Str.lstrip]. destruct (Str.mem c chars) eqn:Hc; [exact IH|].
  cbn [Str.starts_outside]. by rewrite Hc.
Qed.

Lemma glob_member (dir : list (SpectralFile pyfloat)) (pattern : string)
    (f : SpectralFile pyfloat) :
  f ∈ glob dir pattern <->
  f ∈ dir /\ sf_subdir f = false /\ Fnmatch.fnmatch (sf_name f) pattern = true.
Proof.
  unfold glob. rewrite !list_elem_of_In, filter_In, andb_true_iff, negb_true_iff.
  tauto.
Qed.

(** X1.  On a fetched store [get_available_ids] returns a list without
    duplicates whose members are exactly the ids derived from the files that
    lie directly in the spectra directory and match [SN*.dat]. *)
Theorem available_ids_characterised st :
  data_is_available st = true ->
  exists ids,
    get_available_ids st = Ok ids /\ NoDup ids /\
    forall id,
      id ∈ ids <->
      exists f, f ∈ spectra_dir st /\ sf_subdir f = false /\
                Fnmatch.fnmatch (sf_name f) "SN*.dat" = true /\
                id = id_of_name (sf_name f).
Proof.
  intros Hav. unfold get_available_ids, _raise_for_data. rewrite Hav.
  cbn [mbind result_bind]. eexists. split; [reflexivity|]. split.
  - apply NoDup_elements.
  - intros id. rewrite elem_of_elements, elem_of_list_to_set, list_elem_of_fmap.
    split.
    + intros (f & -> & Hf). apply glob_member in Hf as (? & ? & ?). by exists f.
    + intros (f & ? & ? & ? & ->). exists f. split; [done|]. by apply glob_member.
Qed.

(** X2.  Every id [get_available_ids] lists begins with ["20"], and what
    follows never begins with [S] or [N]. *)
Theorem available_ids_shape st (ids : list string) :
  get_available_ids st = Ok ids ->
  Forall (fun id => Str.slice_to 2 id = "20" /\
                    Str.starts_outside "SN" (Str.slice_from 2 id) = true) ids.
Proof.
  unfold get_available_ids. destruct (_raise_for_data st); [|discriminate].
  cbn [mbind result_bind]. intros [= <-].
  apply Forall_forall. intros id.
  rewrite elem_of_elements, elem_of_list_to_set, list_elem_of_fmap.
  intros (f & -> & _). unfold id_of_name. split; [reflexivity|].
  apply lstrip_starts_outside.
Qed.

Lemma id_of_name_strips (suffix rest : string) :
  Str.mem "_" suffix = false ->
  id_of_name ("SN" +:+ suffix +:+ "_" +:+ rest) = "20" +:+ Str.lstrip "SN" suffix.
Proof.
  intros Hu. unfold id_of_name.
  change ("SN" +:+ suffix +:+ "_" +:+ rest)
    with (String "S" (String "N" suffix) +:+ String "_" rest).
  rewrite split_first by (change (Str.mem "_" suffix = false); exact Hu).
  reflexivity.
Qed.

(** X3.  The enumerator strips every leading [S] and [N] of the first
    component of a name, not the prefix [SN] alone: a file whose object
    suffix begins with one of the two letters gets the id of the file without
    that letter. *)
Theorem leading_letters_collide (c : ascii) (suffix rest1 rest2 : string) :
  Str.mem c "SN" = true ->
  Str.mem "_" suffix = false ->
  id_of_name ("SN" +:+ String c suffix +:+ "_" +:+ rest1) =
  id_of_name ("SN" +:+ suffix +:+ "_" +:+ rest2).
Proof.
  intros Hc Hu.
  assert (Ascii.eqb c "_" = false) as Hc'.
  { cbn [Str.mem] in Hc. rewrite orb_false_r in Hc.
    apply orb_true_iff in Hc as [<-%Ascii.eqb_eq | <-%Ascii.eqb_eq]; reflexivity. }
  rewrite !id_of_name_strips; [|exact Hu|cbn [Str.mem]; by rewrite Hc', Hu].
  cbn [Str.lstrip]. by rewrite Hc.
Qed.

End Enumerators.

Section Tables.
Context {pyfloat : Type}.
Variable int : string -> option Z.
Implicit Types (st : Store pyfloat) (f : TableFile pyfloat).

Lemma table_nums_of_Ok (files : list (TableFile pyfloat)) (ns : list Z) :
  table_nums_of int files = Ok ns <->
  Forall2 (fun f n => int (Str.lstrip "table" (Str.stem (tf_name f))) = Some n) files ns.
Proof.
  revert ns. induction files as [|f files IH]; intros ns; cbn [table_nums_of].
  - split; [intros [= <-]; constructor | by intros ->%Forall2_nil_inv_l].
  - unfold to_int. destruct (int _) as [n|] eqn:Hn; cbn [or_raise mbind result_bind].
    + destruct (table_nums_of int files) as [ns'|e] eqn:Hrest;
        cbn [mbind result_bind].
      * split.
        -- intros [= <-]. constructor; [done|]. by apply IH.
        -- intros (n' & ns'' & Hn' & Hns%IH & ->)%Forall2_cons_inv_l.
           cbv beta in Hn'. congruence.
      * split; [discriminate|].
        intros (n' & ns'' & _ & Hns%IH & _)%Forall2_cons_inv_l. discriminate.
    + split; [discriminate|].
      intros (n' & ns'' & Hn' & _)%Forall2_cons_inv_l. cbv beta in Hn'. congruence.
Qed.

(** X4.  [get_available_tables] succeeds exactly when the name of every file
    matching [table*.dat], at any depth, converts to an integer once the
    extension and the leading characters [t], [a], [b], [l], [e] are
    stripped; it then returns those integers one per file, in directory
    order, duplicates included. *)
Theorem available_tables_characterised st (ns : list Z) :
  get_available_tables int st = Ok ns <->
  Forall2 (fun f n => int (Str.lstrip "table" (Str.stem (tf_name f))) = Some n)
          (List.filter (fun f => Fnmatch.fnmatch (tf_name f) "table*.dat") (table_dir st))
          ns.
Proof. apply table_nums_of_Ok. Qed.

Lemma table_nums_of_bad (files : list (TableFile pyfloat)) f :
  f ∈ files ->
  int (Str.lstrip "table" (Str.stem (tf_name f))) = None ->
  exists msg, table_nums_of int files = Raise (ValueError msg).
Proof.
  intros Hin Hbad. induction files as [|g files IH]; [by apply elem_of_nil in Hin|].
  cbn [table_nums_of]. unfold to_int.
  destruct (int (Str.lstrip "table" (Str.stem (tf_name g)))) as [n|] eqn:Hg;
    cbn [or_raise mbind result_bind]; [|eauto].
  apply elem_of_cons in Hin as [->|Hin]; [congruence|].
  destruct (IH Hin) as [msg ->]. eauto.
Qed.

(** X5.  One file matching [table*.dat] whose stripped name is not an
    integer makes the whole listing fail with a [ValueError]. *)
Theorem available_tables_bad_name st f :
  f ∈ table_dir st ->
  Fnmatch.fnmatch (tf_name f) "table*.dat" = true ->
  int (Str.lstrip "table" (Str.stem (tf_name f))) = None ->
  exists msg, get_available_tables int st = Raise (ValueError msg).
Proof.
  intros Hin Hm Hbad. apply (table_nums_of_bad _ f); [|done].
  apply list_elem_of_In, filter_In. split; [by apply list_elem_of_In | done].
Qed.

(** *** From a listed number back to its table *)

Lemma rfind_last (c : ascii) (a b : string) :
  Str.mem c b = false ->
  Str.rfind c (a +:+ String c b) = Some (String.length a).
Proof.
  intros Hb.
  assert (Str.rfind c b = None) as Hnone.
  { induction b as [|x b IH]; [reflexivity|].
    cbn [Str.mem] in Hb. apply orb_false_iff in Hb as [Hx Hb].
    cbn [Str.rfind]. by rewrite (IH Hb), Hx. }
  induction a as [|x a IH].
  - rewrite string_app_empty. cbn [Str.rfind String.length].
    by rewrite Hnone, Ascii.eqb_refl.
  - rewrite string_app_cons. cbn [Str.rfind String.length]. by rewrite IH.
Qed.

Lemma slice_to_app (a b : string) : Str.slice_to (String.length a) (a +:+ b) = a.
Proof.
  induction a as [|x a IH]; [reflexivity|].
  rewrite string_app_cons. cbn [String.length Str.slice_to]. by rewrite IH.
Qed.

(** The stem of [<a>.dat] is [<a>], whatever dots [<a>] contains. *)
Lemma stem_of_dat (a : string) : a <> "" -> Str.stem (a +:+ ".dat") = a.
Proof.
  intros Ha. unfold Str.stem.
  change (a +:+ ".dat") with (a +:+ String "." "dat").
  rewrite rfind_last by reflexivity.
  rewrite string_length_app. cbn [String.length].
  destruct a as [|x a]; [done|]. cbn [String.length].
  replace (0 <? S (String.length a)) with true by (symmetry; by apply Nat.ltb_lt; lia).
  replace (S (String.length a) <? S (String.length a) + 4 - 1) with true
    by (symmetry; apply Nat.ltb_lt; lia).
  apply (slice_to_app (String x a)).
Qed.

Lemma pretty_N_go_outside (x : N) (s : string) :
  Str.starts_outside "table" s = true ->
  Str.starts_outside "table" (pretty_N_go x s) = true.
Proof.
  revert s. induction (N.lt_wf_0 x) as [x _ IH]; intros s Hs.
  assert (x = 0 \/ 0 < x)%N as [->|Hx] by lia.
  - by rewrite pretty_N_go_0.
  - rewrite pretty_N_go_step by done. apply IH; [by apply N.div_lt|].
    unfold pretty_N_char. by repeat case_match.
Qed.

(** What Python prints for an integer begins with a digit or a minus sign. *)
Lemma pretty_Z_outside (n : Z) : Str.starts_outside "table" (pretty n) = true.
Proof.
  destruct n as [|p|p]; [reflexivity| |reflexivity].
  unfold pretty, pretty_Z, pretty, pretty_positive, pretty, pretty_N.
  case_decide; [reflexivity|]. by apply pretty_N_go_outside.
Qed.

Lemma fnmatch_table_dat (body : string) :
  Fnmatch.fnmatch ("table" +:+ body +:+ ".dat") "table*.dat" = true.
Proof.
  change (Fnmatch.fnmatch ("table" +:+ body +:+ ".dat") "table*.dat")
    with (Fnmatch.matches
            [Fnmatch.TStar; Fnmatch.TChar "."; Fnmatch.TChar "d"; Fnmatch.TChar "a";
             Fnmatch.TChar "t"] (body +:+ ".dat")).
  by apply matches_star_app.
Qed.

(** X6.  Round trip between the two table functions on a fetched store: for
    a file [table<N>.dat] directly in the table directory, with [<N>] as
    Python prints the integer, a successful listing contains [N], and
    [load_table(N)] returns what the reader makes of a file of that name. *)
Theorem table_round_trip st f (n : Z) (ns : list Z) :
  data_is_available st = true ->
  f ∈ table_dir st -> tf_subdir f = false ->
  tf_name f = "table" +:+ pretty n +:+ ".dat" ->
  int (pretty n) = Some n ->
  get_available_tables int st = Ok ns ->
  n ∈ ns /\
  exists f', f' ∈ table_dir st /\ tf_subdir f' = false /\ tf_name f' = tf_name f /\
             load_table st n = tf_read f'.
Proof.
  intros Hav Hin Hsub Hname Hint Hns. split.
  - apply table_nums_of_Ok in Hns.
    assert (f ∈ List.filter (fun f => Fnmatch.fnmatch (tf_name f) "table*.dat") (table_dir st))
      as Hf.
    { apply list_elem_of_In, filter_In. split; [by apply list_elem_of_In|].
      rewrite Hname. apply fnmatch_table_dat. }
    apply list_elem_of_lookup in Hf as [i Hi].
    destruct (Forall2_lookup_l _ _ _ _ _ Hns Hi) as (n' & Hn' & Hconv).
    rewrite Hname in Hconv.
    change ("table" +:+ pretty n +:+ ".dat") with (("table" +:+ pretty n) +:+ ".dat") in Hconv.
    rewrite stem_of_dat in Hconv by discriminate.
    change (Str.lstrip "table" ("table" +:+ pretty n))
      with (Str.lstrip "table" (pretty n)) in Hconv.
    rewrite lstrip_outside in Hconv by apply pretty_Z_outside.
    assert (n' = n) as -> by congruence.
    by apply list_elem_of_lookup_2 in Hn'.
  - unfold load_table, _raise_for_data. rewrite Hav.
    cbn [mbind result_bind bool_of_method negb]. unfold ascii_read. rewrite <- Hname.
    destruct (List.find _ (table_dir st)) as [f'|] eqn:Hfind.
    + apply find_some in Hfind as [Hin' Hf'].
      apply andb_true_iff in Hf' as [Hs' Hn'%String.eqb_eq].
      exists f'. repeat split; [by apply list_elem_of_In | by apply negb_true_iff | done].
    + apply find_none with (x := f) in Hfind; [|by apply list_elem_of_In].
      by rewrite Hsub, String.eqb_refl in Hfind.
Qed.

End Tables.

(* ===================================================================== *)
(** * Further properties of the aggregator *)
(* ===================================================================== *)

Section AggregatorMore.
Context {pyfloat : Type} (float : string -> option pyfloat).
Implicit Types (st : Store pyfloat) (f : SpectralFile pyfloat) (t : Table pyfloat)
  (v : FileVars pyfloat).

(** X7.  Without fetched data nothing is read: [load_table],
    [get_available_ids] and [get_data_for_id] raise [DataUnavailable]
    whatever their argument, and [iter_data] ends with it before it yields
    anything. *)
Theorem nothing_without_data st (table_num : Z) (obj_id : string) (verbose : bool) :
  data_is_available st = false ->
  load_table st table_num = Raise DataUnavailable /\
  get_available_ids st = Raise DataUnavailable /\
  get_data_for_id float st obj_id = Raise DataUnavailable /\
  iter_data float verbose st = ([], Some DataUnavailable).
Proof.
  intros Hav.
  unfold load_table, iter_data, get_available_ids, get_data_for_id, _raise_for_data.
  by rewrite Hav.
Qed.

Lemma for_files_error (fs1 fs2 : list (SpectralFile pyfloat)) f
    (vs1 : list (FileVars pyfloat)) (e : exn) t (b : option (pyfloat * pyfloat)) :
  Forall2 (fun f v => read_file float f = Ok v) fs1 vs1 ->
  read_file float f = Raise e ->
  for_files float (fs1 ++ f :: fs2) t b = Raise e.
Proof.
  intros H Hf. revert t b. induction H as [|g v fs vs Hg _ IH]; intros t b.
  - cbn [app for_files]. by rewrite Hf.
  - cbn [app for_files]. rewrite Hg. cbn [mbind result_bind]. apply IH.
Qed.

(** X8.  One file that does not parse aborts the load of the whole object:
    when the files iterated before it parse, [get_data_for_id] raises the
    exception met on that file, and the files after it are not read. *)
Theorem first_broken_file_aborts st (obj_id : string)
    (fs1 fs2 : list (SpectralFile pyfloat)) f (e : exn) :
  data_is_available st = true ->
  rglob sf_name (spectra_dir st) (spectra_pattern obj_id) = Ok (fs1 ++ f :: fs2) ->
  Forall (parses float) fs1 ->
  read_file float f = Raise e ->
  get_data_for_id float st obj_id = Raise e.
Proof.
  intros Hav Hfs (vs1 & Hvs1)%parses_Forall2 Hf.
  unfold get_data_for_id, _raise_for_data. rewrite Hav, Hfs.
  cbn [mbind result_bind bool_of_generator negb].
  by rewrite (for_files_error _ _ _ _ _ _ _ Hvs1 Hf).
Qed.

(** X9.  A file parses only if the reader returns at least five comment
    lines for it and the stem of its name has exactly five
    underscore-separated parts. *)
Theorem parsed_file_is_well_formed f v :
  read_file float f = Ok v ->
  exists s cs,
    sf_read f = Ok s /\ comments s = Some cs /\ 5 <= length cs /\
    length (Str.split "_" (Str.stem (sf_name f))) = 5.
Proof.
  intros (s & cs & c1 & c2 & c3 & c4 & u1 & u2 & Hs & Hcs & _ & _ & _ & _ & _ & _ &
          Hc4 & _ & Hsplit & _)%read_file_inv.
  exists s, cs. repeat split; [done | done | | by rewrite Hsplit].
  apply lookup_lt_Some in Hc4. lia.
Qed.

(** X10.  A file the reader returns with no comment line, or with a single
    one, makes the turn of the loop fail on the header, whatever its name
    and its data: with [KeyError] on [meta['comments']] in the first case,
    with [IndexError] on [file_comments[1]] in the second. *)
Theorem short_header_error f (s : Spectrum pyfloat) :
  sf_read f = Ok s ->
  length (default [] (comments s)) <= 1 ->
  read_file float f =
  Raise match comments s with
        | None => KeyError "comments"
        | Some _ => IndexError "list index out of range"
        end.
Proof.
  intros Hs Hlen. unfold read_file, Table_read. rewrite Hs.
  cbn [mbind result_bind]. unfold meta_comments. cbn [meta].
  destruct (comments s) as [cs|].
  - rewrite lookup_singleton_eq. cbn [mbind result_bind default from_option id] in *.
    unfold getitem. rewrite (lookup_ge_None_2 cs 1) by (cbn in Hlen; lia). reflexivity.
  - by rewrite lookup_empty.
Qed.

(** What a successful call has gone through. *)
Lemma get_data_for_id_inv st (obj_id : string) t :
  get_data_for_id float st obj_id = Ok t ->
  exists fs vs v_last,
    data_is_available st = true /\
    rglob sf_name (spectra_dir st) (spectra_pattern obj_id) = Ok fs /\
    Forall2 (fun f v => read_file float f = Ok v) fs vs /\
    last vs = Some v_last /\
    t = set_meta "obj_id" (MStr obj_id)
          (set_meta "JDate_of_max" (MFloat (max_date v_last))
            (set_meta "redshift" (MFloat (redshift v_last))
              (stack_files empty_out_table vs))) /\
    columns t = stack_all (spectral_data <$> vs).
Proof.
  intros Ht.
  assert (data_is_available st = true) as Hav.
  { unfold get_data_for_id, _raise_for_data in Ht. by destruct (data_is_available st). }
  destruct (rglob sf_name (spectra_dir st) (spectra_pattern obj_id)) as [fs|e] eqn:Hfs.
  2:{ unfold get_data_for_id, _raise_for_data in Ht. by rewrite Hav, Hfs in Ht. }
  assert (exists vs, Forall2 (fun f v => read_file float f = Ok v) fs vs) as [vs Hvs].
  { unfold get_data_for_id, _raise_for_data in Ht. rewrite Hav, Hfs in Ht.
    cbn [mbind result_bind bool_of_generator negb] in Ht.
    destruct (for_files float fs empty_out_table None) as [r|] eqn:Hr; [|discriminate].
    by apply for_files_inv in Hr. }
  rewrite (get_data_for_id_total _ _ _ _ _ Hav Hfs Hvs) in Ht.
  destruct (last vs) as [v_last|] eqn:Hlast; [|discriminate]. injection Ht as <-.
  exists fs, vs, v_last. repeat split; try done.
  cbn [set_meta columns].
  apply (columns_stack_files empty_out_table []); [reflexivity|].
  by apply (read_all_regular float fs).
Qed.

Lemma read_file_no_mask f v (n : string) :
  read_file float f = Ok v -> n ∈ out_names ->
  CMasked ∉ col_or_masked n (spectral_data v).
Proof.
  intros (s & cs & c1 & c2 & c3 & c4 & u1 & u2 & _ & _ & _ & _ & _ & _ & _ & _ & _ & _ & _ & ->)%read_file_inv Hn.
  each_out_name Hn;
    cbv [col_or_masked get_col len columns List.find fst snd String.eqb Ascii.eqb Bool.eqb
         fmap option_fmap option_map];
    first [ by intros (? & ? & _)%list_elem_of_fmap
          | by intros [? _]%elem_of_replicate ].
Qed.

(** X11.  Every table [get_data_for_id] returns has the seven declared
    columns in the declared order, all of the same length, and no masked
    cell. *)
Theorem returned_table_is_rectangular st (obj_id : string) t :
  get_data_for_id float st obj_id = Ok t ->
  colnames t = out_names /\
  Forall (fun c => length c.2 = len t) (columns t) /\
  Forall (fun c => CMasked ∉ c.2) (columns t).
Proof.
  intros (fs & vs & v_last & _ & _ & Hvs & _ & _ & Hcols)%get_data_for_id_inv.
  assert (Forall regular (spectral_data <$> vs)) as Hreg
    by apply Forall_fmap, (read_all_regular float fs vs Hvs).
  split; [unfold colnames; by rewrite Hcols|]. split.
  - rewrite (len_stack_all _ t Hcols Hreg), Hcols. unfold stack_all.
    apply Forall_fmap, Forall_forall. intros n Hn. cbn [snd compose].
    by apply length_stacked.
  - rewrite Hcols. unfold stack_all.
    apply Forall_fmap, Forall_forall. intros n Hn. cbn [snd compose].
    unfold stacked. intros (d & Hd%list_elem_of_In & Hin%list_elem_of_In)%list_elem_of_In%in_concat.
    apply list_elem_of_fmap in Hd as (sd & -> & Hsd).
    apply list_elem_of_fmap in Hsd as (v & -> & Hv).
    destruct (proj1 (list_elem_of_lookup vs v) Hv) as [i Hi].
    destruct (Forall2_lookup_r _ _ _ _ _ Hvs Hi) as (f & _ & Hf).
    by apply (read_file_no_mask f v n Hf Hn) in Hin.
Qed.

Lemma set_meta_twice (key : string) (a b : meta_val pyfloat) t :
  set_meta key b (set_meta key a t) = set_meta key b t.
Proof. unfold set_meta. cbn [columns meta]. by rewrite insert_insert_eq. Qed.

(** X12.  [get_data_for_id] never looks at the first two characters of the
    id: two ids that agree from the third character on give the same table,
    up to the [obj_id] entry of the metadata. *)
Theorem id_prefix_ignored st (id1 id2 : string) t :
  Str.slice_from 2 id1 = Str.slice_from 2 id2 ->
  get_data_for_id float st id1 = Ok t ->
  get_data_for_id float st id2 = Ok (set_meta "obj_id" (MStr id2) t).
Proof.
  intros Hid (fs & vs & v_last & Hav & Hfs & Hvs & Hlast & -> & _)%get_data_for_id_inv.
  assert (spectra_pattern id1 = spectra_pattern id2) as Hpat
    by (unfold spectra_pattern; by rewrite Hid).
  rewrite Hpat in Hfs.
  rewrite (get_data_for_id_total _ _ _ _ _ Hav Hfs Hvs), Hlast.
  by rewrite set_meta_twice.
Qed.

End AggregatorMore.

Section Provenance.
Context {pyfloat : Type} (float : string -> option pyfloat).
Implicit Types (st : Store pyfloat) (f : SpectralFile pyfloat) (t : Table pyfloat)
  (v : FileVars pyfloat).

(** X13.  Rows keep their provenance and the directory order: in the table
    [get_data_for_id] returns, the rows of a file come after the rows of all
    files iterated before it, and row [i] of the file is its [i]-th
    wavelength and flux together with the observation date, epoch,
    wavelength range, telescope and instrument of that same file. *)
Theorem rows_keep_provenance st (obj_id : string) (fs1 fs2 : list (SpectralFile pyfloat))
    f v (s : Spectrum pyfloat) t (i : nat) (r : pyfloat * pyfloat) :
  rglob sf_name (spectra_dir st) (spectra_pattern obj_id) = Ok (fs1 ++ f :: fs2) ->
  get_data_for_id float st obj_id = Ok t ->
  read_file float f = Ok v ->
  sf_read f = Ok s ->
  data s !! i = Some r ->
  getrow t (sum_list (file_rows <$> fs1) + i) =
  Some <$> [CFloat (obs_date v); CFloat r.1; CFloat r.2; CFloat (epoch v);
            CStr (wrange v); CStr (telescope v); CStr (instrument v)].
Proof.
  intros Hfs (fs & vs & v_last & _ & Hfs' & Hvs & _ & _ & Hcols)%get_data_for_id_inv
         Hv Hs Hr.
  rewrite Hfs in Hfs'. injection Hfs' as <-.
  apply Forall2_app_inv_l in Hvs as (vs1 & vs' & Hvs1 & Hvs' & ->).
  apply Forall2_cons_inv_l in Hvs' as (v' & vs2 & Hv' & Hvs2 & ->).
  assert (v' = v) as -> by congruence.
  assert (Forall regular (spectral_data <$> vs1)) as Hreg1
    by apply Forall_fmap, (read_all_regular float fs1 vs1 Hvs1).
  rewrite <- (len_read_all float _ _ Hvs1).
  rewrite fmap_app, fmap_cons in Hcols.
  destruct (read_file_inv float _ _ Hv)
    as (s' & cs & c1 & c2 & c3 & c4 & u1 & u2 & Hs' & _ & _ & _ & _ & _ & _ & _ & _ & _ & _ & Hsd).
  assert (s' = s) as -> by congruence.
  pose proof (lookup_lt_Some _ _ _ Hr) as Hi.
  unfold getrow. rewrite Hcols. unfold stack_all, out_names.
  cbn [fmap list_fmap snd].
  repeat f_equal;
    (apply stacked_lookup; [unfold out_names; set_solver | exact Hreg1 |]);
    rewrite Hsd;
    cbv [col_or_masked get_col len columns List.find fst snd String.eqb Ascii.eqb Bool.eqb
         fmap option_fmap option_map];
    first [ by apply lookup_replicate_2
          | by rewrite list_lookup_fmap, Hr ].
Qed.

End Provenance.

(* ===================================================================== *)
(** * Further properties of the iteration driver and of its tests *)
(* ===================================================================== *)

Section Iteration.
Context {pyfloat : Type} (float : string -> option pyfloat).
Implicit Types (st : Store pyfloat) (t : Table pyfloat).

Lemma iter_ids_error st (ids1 ids2 : list string) (id : string)
    (ts : list (Table pyfloat)) (e : exn) :
  Forall2 (fun i t => get_data_for_id float st i = Ok t) ids1 ts ->
  get_data_for_id float st id = Raise e ->
  iter_ids float st (ids1 ++ id :: ids2) = (List.filter bool_of_table ts, Some e).
Proof.
  intros H He. induction H as [|i t ids ts Hi _ IH].
  - cbn [app iter_ids]. by rewrite He.
  - cbn [app iter_ids List.filter]. rewrite Hi, IH. by destruct (bool_of_table t).
Qed.

Lemma iter_ids_all st (ids : list string) (ts : list (Table pyfloat)) :
  Forall2 (fun i t => get_data_for_id float st i = Ok t) ids ts ->
  iter_ids float st ids = (List.filter bool_of_table ts, None).
Proof.
  induction 1 as [|i t ids ts Hi _ IH]; [reflexivity|].
  cbn [iter_ids List.filter]. rewrite Hi, IH. by destruct (bool_of_table t).
Qed.

(** X14.  [iter_data] stops at the first object that fails to load: it has
    yielded the non-empty tables of the ids listed before it, in order, ends
    with the exception of that load, and never tries the ids after it. *)
Theorem iteration_stops_at_error st (verbose : bool) (ids1 ids2 : list string)
    (id : string) (ts : list (Table pyfloat)) (e : exn) :
  get_available_ids st = Ok (ids1 ++ id :: ids2) ->
  Forall2 (fun i t => get_data_for_id float st i = Ok t) ids1 ts ->
  get_data_for_id float st id = Raise e ->
  iter_data float verbose st = (List.filter bool_of_table ts, Some e).
Proof.
  intros Hids Hts He. unfold iter_data, build_pbar. rewrite Hids.
  by apply iter_ids_error.
Qed.

(** X15.  When every listed object loads, [iter_data] yields exactly the
    non-empty ones among their tables, in the order of the listing, and ends
    normally. *)
Theorem iteration_yields_non_empty st (verbose : bool) (ids : list string)
    (ts : list (Table pyfloat)) :
  get_available_ids st = Ok ids ->
  Forall2 (fun i t => get_data_for_id float st i = Ok t) ids ts ->
  iter_data float verbose st = (List.filter bool_of_table ts, None).
Proof.
  intros Hids Hts. unfold iter_data, build_pbar. rewrite Hids.
  by apply iter_ids_all.
Qed.

Lemma get_data_for_id_obj_id st (obj_id : string) t :
  get_data_for_id float st obj_id = Ok t ->
  meta t !! "obj_id" = Some (MStr obj_id).
Proof.
  intros H. apply get_data_for_id_inv in H as (fs & vs & v_last & _ & _ & _ & _ & -> & _).
  cbn [set_meta meta]. by rewrite lookup_insert_eq.
Qed.

Lemma iter_ids_yielded st (ids : list string) :
  Forall (fun t => exists id, id ∈ ids /\ get_data_for_id float st id = Ok t /\
                              meta t !! "obj_id" = Some (MStr id))
         (iter_ids float st ids).1.
Proof.
  induction ids as [|i ids IH]; [constructor|].
  cbn [iter_ids]. destruct (get_data_for_id float st i) as [t|e] eqn:Hi; [|constructor].
  destruct (iter_ids float st ids) as [ys e]. cbn [fst] in IH.
  assert (Forall (fun t => exists id, id ∈ i :: ids /\ get_data_for_id float st id = Ok t /\
                                      meta t !! "obj_id" = Some (MStr id)) ys) as IH'.
  { eapply Forall_impl; [exact IH|]. intros t' (id & ? & ? & ?).
    exists id. split; [by apply elem_of_cons; right | done]. }
  destruct (bool_of_table t); cbn [fst]; [|done].
  constructor; [|done]. exists i.
  split; [apply elem_of_cons; by left|]. split; [done|].
  by apply (get_data_for_id_obj_id st).
Qed.

Lemma iter_ids_NoDup st (ids : list string) :
  NoDup ids ->
  NoDup ((fun t => meta t !! "obj_id") <$> (iter_ids float st ids).1).
Proof.
  induction 1 as [|i ids Hi _ IH]; [constructor|].
  pose proof (iter_ids_yielded st ids) as Hys.
  cbn [iter_ids]. destruct (get_data_for_id float st i) as [t|e] eqn:Hti; [|constructor].
  destruct (iter_ids float st ids) as [ys e]. cbn [fst] in *.
  destruct (bool_of_table t); cbn [fst]; [|done].
  rewrite fmap_cons. constructor; [|done].
  intros (t' & Ht' & Hin)%list_elem_of_fmap.
  rewrite Forall_forall in Hys. destruct (Hys t' Hin) as (id & Hid & _ & Hmeta).
  rewrite (get_data_for_id_obj_id _ _ _ Hti), Hmeta in Ht'. by injection Ht' as ->.
Qed.

(** X16.  Every table [iter_data] yields is the table [get_data_for_id]
    returns for an id of the listing, carries that id in its metadata, and
    no two yielded tables carry the same id. *)
Theorem yielded_tables_are_listed_objects st (verbose : bool) (ids : list string) :
  get_available_ids st = Ok ids ->
  Forall (fun t => exists id, id ∈ ids /\ get_data_for_id float st id = Ok t /\
                              meta t !! "obj_id" = Some (MStr id))
         (iter_data float verbose st).1 /\
  NoDup ((fun t => meta t !! "obj_id") <$> (iter_data float verbose st).1).
Proof.
  intros Hids. unfold iter_data, build_pbar. rewrite Hids. split.
  - apply iter_ids_yielded.
  - apply iter_ids_NoDup.
    unfold get_available_ids in Hids. destruct (_raise_for_data st); [|discriminate].
    cbn [mbind result_bind] in Hids. injection Hids as <-. apply NoDup_elements.
Qed.

(** ** The tests *)

Lemma check_not_empty_good (lim : option nat) (i : nat) (ts : list (Table pyfloat))
    (ending : option exn) :
  Forall (fun t => is_Some (meta t !! "obj_id") /\ bool_of_table t = true) ts ->
  check_not_empty lim i ts ending = Passed \/
  check_not_empty lim i ts ending =
    match ending with Some e => Errored e | None => Passed end.
Proof.
  intros H. revert i. induction H as [|t ts [[o Ho] Ht] _ IH]; intros i.
  - by right.
  - cbn [check_not_empty]. destruct (reached lim i); [by left|].
    rewrite Ho, Ht. apply IH.
Qed.

Lemma check_not_empty_all (i : nat) (ts : list (Table pyfloat)) (ending : option exn) :
  Forall (fun t => is_Some (meta t !! "obj_id") /\ bool_of_table t = true) ts ->
  check_not_empty None i ts ending =
    match ending with Some e => Errored e | None => Passed end.
Proof.
  intros H. revert i. induction H as [|t ts [[o Ho] Ht] _ IH]; intros i; [done|].
  cbn [check_not_empty reached]. rewrite Ho, Ht. apply IH.
Qed.

Lemma iter_data_good st (verbose : bool) :
  Forall (fun t => is_Some (meta t !! "obj_id") /\ bool_of_table t = true)
         (iter_data float verbose st).1.
Proof.
  unfold iter_data, build_pbar. destruct (get_available_ids st) as [ids|e]; [|constructor].
  pose proof (iter_ids_yielded st ids) as Hy.
  pose proof (iter_ids_nonempty float st ids) as Hn.
  rewrite Forall_forall in Hy, Hn. apply Forall_forall. intros t Ht.
  destruct (Hy t Ht) as (id & _ & _ & Hmeta). split; [by rewrite Hmeta|].
  unfold bool_of_table. apply Nat.ltb_lt. by apply Hn.
Qed.

(** X17.  The emptiness test of the repository cannot fail on this module:
    its assertion holds for every table [iter_data] yields, so it passes or
    ends with the exception that ended the iteration; without a limit it
    passes exactly when the iteration ends normally. *)
Theorem empty_data_test_never_fails (lim : option nat) st :
  (_test_empty_data float lim st = Passed \/
   exists e, (iter_data float false st).2 = Some e /\
             _test_empty_data float lim st = Errored e) /\
  _test_empty_data float None st =
    match (iter_data float false st).2 with Some e => Errored e | None => Passed end.
Proof.
  pose proof (iter_data_good st false) as Hgood. unfold _test_empty_data.
  destruct (iter_data float false st) as [ts ending]. cbn [fst snd] in *. split.
  - destruct (check_not_empty_good lim 0 ts ending Hgood) as [->| ->]; [by left|].
    destruct ending as [e|]; [right; by exists e | by left].
  - by apply check_not_empty_all.
Qed.

(** X18.  The filtering test of the repository cannot pass on this module:
    on a fetched store it ends with the [TypeError] of the call
    [iter_data(filter_func=...)], whatever the limit, and on a store that is
    not fetched with [DataUnavailable]. *)
Theorem filtering_test_always_errors (lim : option nat) st :
  _test_table_filtering float lim st =
  Errored (if data_is_available st
           then TypeError "iter_data() got an unexpected keyword argument 'filter_func'"
           else DataUnavailable).
Proof.
  unfold _test_table_filtering, get_available_ids, _raise_for_data.
  by destruct (data_is_available st).
Qed.

End Iteration.

(* ===================================================================== *)
(** * The further properties on concrete stores *)
(* ===================================================================== *)

Example tests_on_concrete_stores :
  _test_empty_data Numerals.float None fetched_store = Passed /\
  _test_empty_data Numerals.float None mixed_store = Errored (KeyError "comments") /\
  _test_empty_data Numerals.float (Some 1) mixed_store = Errored (KeyError "comments") /\
  _test_empty_data Numerals.float (Some 0) mixed_store = Passed.
Proof. evaluate. Qed.

Lemma available_ids_characterised_witness :
  exists ids,
    get_available_ids fetched_store = Ok ids /\ NoDup ids /\
    forall id,
      id ∈ ids <->
      exists f, f ∈ spectra_dir fetched_store /\ sf_subdir f = false /\
                Fnmatch.fnmatch (sf_name f) "SN*.dat" = true /\
                id = id_of_name (sf_name f).
Proof. apply (available_ids_characterised fetched_store). evaluate. Defined.

Lemma available_ids_shape_witness :
  Forall (fun id => Str.slice_to 2 id = "20" /\
                    Str.starts_outside "SN" (Str.slice_from 2 id) = true)
         ["2005hc"; "2006ab"].
Proof. apply (available_ids_shape fetched_store). evaluate. Defined.

Lemma leading_letters_collide_witness :
  id_of_name ("SN" +:+ String "N" "ova1" +:+ "_" +:+ "b01_opt_DUP_BC.dat") =
  id_of_name ("SN" +:+ "ova1" +:+ "_" +:+ "b02_ir_BAA_IM.dat").
Proof. apply (leading_letters_collide "N" "ova1"); evaluate. Defined.

Lemma available_tables_bad_name_witness :
  exists msg, get_available_tables Numerals.int broken_store = Raise (ValueError msg).
Proof.
  apply (available_tables_bad_name Numerals.int broken_store
           {| tf_name := "table_notes.dat"; tf_subdir := false;
              tf_read := Raise (InconsistentTableError "no such table in ReadMe") |}).
  - apply elem_of_cons. right. apply elem_of_cons. left. reflexivity.
  - evaluate.
  - evaluate.
Defined.

Lemma table_round_trip_witness :
  (1 ∈ [1; 2])%Z /\
  exists f', f' ∈ table_dir fetched_store /\ tf_subdir f' = false /\
             tf_name f' = "table1.dat" /\ load_table fetched_store 1 = tf_read f'.
Proof.
  apply (table_round_trip Numerals.int fetched_store
           {| tf_name := "table1.dat"; tf_subdir := false; tf_read := Ok small_table |}
           1 [1; 2]%Z).
  - evaluate.
  - apply elem_of_cons. left. reflexivity.
  - evaluate.
  - evaluate.
  - evaluate.
  - evaluate.
Defined.

Lemma nothing_without_data_witness :
  load_table unfetched_store 1 = Raise DataUnavailable /\
  get_available_ids unfetched_store = Raise DataUnavailable /\
  get_data_for_id Numerals.float unfetched_store "2005hc" = Raise DataUnavailable /\
  iter_data Numerals.float false unfetched_store = ([], Some DataUnavailable).
Proof.
  apply (nothing_without_data Numerals.float unfetched_store 1 "2005hc" false). evaluate.
Defined.

Lemma first_broken_file_aborts_witness :
  get_data_for_id Numerals.float broken_store "2005hc" = Raise (KeyError "comments").
Proof.
  apply (first_broken_file_aborts Numerals.float broken_store "2005hc"
           [one_row_file] [late_file] headerless_file).
  - evaluate.
  - evaluate.
  - constructor; [|constructor]. exists one_row_vars. evaluate.
  - evaluate.
Defined.

Lemma parsed_file_is_well_formed_witness :
  exists s cs,
    sf_read one_row_file = Ok s /\ comments s = Some cs /\ 5 <= length cs /\
    length (Str.split "_" (Str.stem (sf_name one_row_file))) = 5.
Proof.
  apply (parsed_file_is_well_formed Numerals.float one_row_file one_row_vars). evaluate.
Defined.

Lemma short_header_error_witness :
  read_file Numerals.float headerless_file = Raise (KeyError "comments").
Proof.
  apply (short_header_error Numerals.float headerless_file
           {| comments := None; data := [(Qmake 4000 1, Qmake 11 10)] |}).
  - evaluate.
  - cbn. lia.
Defined.

Lemma returned_table_is_rectangular_witness :
  exists t,
    get_data_for_id Numerals.float disagreeing_store "2005hc" = Ok t /\
    len t = 3 /\
    colnames t = out_names /\
    Forall (fun c => length c.2 = len t) (columns t) /\
    Forall (fun c => CMasked ∉ c.2) (columns t).
Proof.
  eexists. split; [evaluate|]. split; [evaluate|].
  apply (returned_table_is_rectangular Numerals.float disagreeing_store "2005hc").
  evaluate.
Defined.

Lemma id_prefix_ignored_witness :
  exists t,
    get_data_for_id Numerals.float scenario_store "201999aa" = Ok t /\
    get_data_for_id Numerals.float scenario_store "xx1999aa" =
      Ok (set_meta "obj_id" (MStr "xx1999aa") t).
Proof.
  eexists. split; [evaluate|].
  apply (id_prefix_ignored Numerals.float scenario_store "201999aa" "xx1999aa");
    evaluate.
Defined.

Lemma rows_keep_provenance_witness :
  exists t,
    get_data_for_id Numerals.float disagreeing_store "2005hc" = Ok t /\
    getrow t (sum_list (file_rows <$> [one_row_file]) + 1) =
    Some <$> [CFloat (obs_date late_vars); CFloat (Qmake 9010 1); CFloat (Qmake 6 10);
              CFloat (epoch late_vars); CStr "ir"; CStr "BAA"; CStr "IM"].
Proof.
  eexists. split; [evaluate|].
  apply (rows_keep_provenance Numerals.float disagreeing_store "2005hc"
           [one_row_file] [] late_file late_vars
           {| comments := Some ["SN05hc"; "Redshift: 0.02"; "JDate_of_max: 2453668.0";
                                "JDate_of_observation: 2453670.5"; "Epoch: 2.5"];
              data := [(Qmake 9000 1, Qmake 5 10); (Qmake 9010 1, Qmake 6 10)] |}
           _ 1 (Qmake 9010 1, Qmake 6 10)); evaluate.
Defined.

Lemma iteration_stops_at_error_witness :
  exists t,
    get_data_for_id Numerals.float mixed_store "2005hc" = Ok t /\
    iter_data Numerals.float false mixed_store = ([t], Some (KeyError "comments")).
Proof.
  eexists. split; [evaluate|].
  etransitivity.
  - eapply (iteration_stops_at_error Numerals.float mixed_store false ["2005hc"] []
              "2006zz" [_] (KeyError "comments"));
      [evaluate | constructor; [evaluate | constructor] | evaluate].
  - evaluate.
Defined.

Lemma iteration_yields_non_empty_witness :
  exists t t0,
    get_data_for_id Numerals.float fetched_store "2005hc" = Ok t /\
    get_data_for_id Numerals.float fetched_store "2006ab" = Ok t0 /\
    bool_of_table t0 = false /\
    iter_data Numerals.float false fetched_store = ([t], None).
Proof.
  do 2 eexists. split; [evaluate|]. split; [evaluate|]. split; [evaluate|].
  etransitivity.
  - eapply (iteration_yields_non_empty Numerals.float fetched_store false
              ["2005hc"; "2006ab"] [_; _]);
      [evaluate | constructor; [evaluate | constructor; [evaluate | constructor]]].
  - evaluate.
Defined.

Lemma yielded_tables_are_listed_objects_witness :
  Forall (fun t => exists id, id ∈ ["2005hc"; "2006ab"] /\
                              get_data_for_id Numerals.float fetched_store id = Ok t /\
                              meta t !! "obj_id" = Some (MStr id))
         (iter_data Numerals.float false fetched_store).1 /\
  NoDup ((fun t => meta t !! "obj_id") <$> (iter_data Numerals.float false fetched_store).1).
Proof.
  apply (yielded_tables_are_listed_objects Numerals.float fetched_store false). evaluate.
Defined.
